(** * Din Charya AI front end: the view-state controller of [App.js]

    A shallow embedding of the React component [App] of
    [frontend/src/App.js]: its state hooks, its event handlers and the
    HTTP calls they make, followed by the properties of the chat, routine
    and loader flows.

    The component is event driven.  An [async] handler runs synchronously
    up to its [await], where it issues its request and suspends; it is
    resumed when the request settles.  The model therefore has, for every
    such handler, the part before the [await] and the part after it, both
    written in a small state-and-exception monad over the [World] the
    component lives in (its hook state, the toasts, the console, the
    requests issued and the handlers suspended on them). *)

From Stdlib Require Import ZArith NArith List String Ascii Bool Lia.
From Stdlib Require Import QArith.
Import ListNotations.

Local Open Scope Z_scope.
Local Open Scope list_scope.

(* ================================================================== *)
(** * JavaScript values the component handles *)

(** A JavaScript string is a sequence of UTF-16 code units. *)
Definition jsstring := list N.

(** The code units of an ASCII literal of the source. *)
Definition js (s : string) : jsstring :=
  map N_of_ascii (list_ascii_of_string s).

Fixpoint jsstring_eqb (a b : jsstring) : bool :=
  match a, b with
  | [], [] => true
  | x :: a', y :: b' => (x =? y)%N && jsstring_eqb a' b'
  | _, _ => false
  end.

Module JS.

(** ECMAScript [WhiteSpace]: TAB, VT, FF, ZWNBSP and the code points of
    category Zs. *)
Definition is_white_space (c : N) : bool :=
  ((c =? 0x09) || (c =? 0x0B) || (c =? 0x0C) || (c =? 0xFEFF)
   || (c =? 0x20) || (c =? 0xA0) || (c =? 0x1680)
   || ((0x2000 <=? c) && (c <=? 0x200A))
   || (c =? 0x202F) || (c =? 0x205F) || (c =? 0x3000))%N.

(** ECMAScript [LineTerminator]: LF, CR, LS, PS. *)
Definition is_line_terminator (c : N) : bool :=
  ((c =? 0x0A) || (c =? 0x0D) || (c =? 0x2028) || (c =? 0x2029))%N.

(** What [String.prototype.trim] strips from both ends. *)
Definition is_trimmed (c : N) : bool :=
  is_white_space c || is_line_terminator c.

Fixpoint trimStart (s : jsstring) : jsstring :=
  match s with
  | [] => []
  | c :: rest => if is_trimmed c then trimStart rest else s
  end.

Definition trimEnd (s : jsstring) : jsstring :=
  rev (trimStart (rev s)).

Definition trim (s : jsstring) : jsstring :=
  trimEnd (trimStart s).

(** [ToBoolean] of a string: only the empty string is falsy. *)
Definition truthy (s : jsstring) : bool :=
  match s with
  | [] => false
  | _ :: _ => true
  end.

(** [s.split(sep)] for a separator of one code unit. *)
Fixpoint split (sep : N) (s : jsstring) : list jsstring :=
  match s with
  | [] => [[]]
  | c :: rest =>
      if (c =? sep)%N then [] :: split sep rest
      else match split sep rest with
           | [] => [[c]]
           | piece :: pieces => (c :: piece) :: pieces
           end
  end.

(** Indexing an array of strings; out of range is [undefined], which no
    call of the component reaches. *)
Definition at_index (pieces : list jsstring) (i : nat) : jsstring :=
  nth i pieces [].

End JS.

(* ================================================================== *)
(** * [Date]: the part of the built-in that [handleRoutineSave] uses *)

Module JSDate.

(** A time value: milliseconds since 1970-01-01T00:00:00Z. *)
Definition time := Z.

Definition msPerDay : Z := 86400000.
Definition msPerHour : Z := 3600000.
Definition msPerMinute : Z := 60000.
Definition msPerSecond : Z := 1000.

Definition Day (t : time) : Z := t / msPerDay.
Definition HourFromTime (t : time) : Z := (t / msPerHour) mod 24.
Definition MinFromTime (t : time) : Z := (t / msPerMinute) mod 60.
Definition SecFromTime (t : time) : Z := (t / msPerSecond) mod 60.
Definition msFromTime (t : time) : Z := t mod msPerSecond.

(** The proleptic Gregorian calendar repeats every 400 years, that is
    every 146097 days.  [day_of_era] counts from 0000-03-01, so that the
    leap day is the last day of a year that starts in March. *)
Definition daysPerEra : Z := 146097.
Definition era (days : Z) : Z := (days + 719468) / daysPerEra.
Definition day_of_era (days : Z) : Z := (days + 719468) mod daysPerEra.

Definition year_of_era (doe : Z) : Z :=
  (doe - doe / 1460 + doe / 36524 - doe / 146096) / 365.
(** Day of the year that starts on March 1st, 0 to 365. *)
Definition day_of_year (doe : Z) : Z :=
  let yoe := year_of_era doe in
  doe - (365 * yoe + yoe / 4 - yoe / 100).
(** Month counted from March = 0. *)
Definition march_month (doy : Z) : Z := (5 * doy + 2) / 153.
(** Day of the month, 1 to 31. *)
Definition day_of_month (doy : Z) : Z :=
  doy - (153 * march_month doy + 2) / 5 + 1.
(** Month of the year, 1 to 12. *)
Definition month_of_year (doy : Z) : Z :=
  let mp := march_month doy in
  if mp <? 10 then mp + 3 else mp - 9.

Definition YearFromTime (t : time) : Z :=
  let days := Day t in
  let doe := day_of_era days in
  year_of_era doe + 400 * era days
  + (if month_of_year (day_of_year doe) <=? 2 then 1 else 0).
(** ECMAScript counts months from 0. *)
Definition MonthFromTime (t : time) : Z :=
  month_of_year (day_of_year (day_of_era (Day t))) - 1.
Definition DateFromTime (t : time) : Z :=
  day_of_month (day_of_year (day_of_era (Day t))).

(** [n] written with exactly [width] decimal digits. *)
Fixpoint pad (width : nat) (n : Z) : jsstring :=
  match width with
  | O => []
  | S w => pad w (n / 10) ++ [Z.to_N (48 + n mod 10)]
  end.

(** Years 0 to 9999 take four digits, the others a sign and six. *)
Definition year_string (y : Z) : jsstring :=
  if (0 <=? y) && (y <=? 9999) then pad 4 y
  else (if y <? 0 then js "-" else js "+") ++ pad 6 (Z.abs y).

(** [Date.prototype.toISOString]: YYYY-MM-DDTHH:mm:ss.sssZ. *)
Definition toISOString (t : time) : jsstring :=
  year_string (YearFromTime t) ++ js "-"
  ++ pad 2 (MonthFromTime t + 1) ++ js "-"
  ++ pad 2 (DateFromTime t) ++ js "T"
  ++ pad 2 (HourFromTime t) ++ js ":"
  ++ pad 2 (MinFromTime t) ++ js ":"
  ++ pad 2 (SecFromTime t) ++ js "."
  ++ pad 3 (msFromTime t) ++ js "Z".

Definition is_digit (c : N) : bool := ((48 <=? c) && (c <=? 57))%N.
Definition digit_value (c : N) : Z := Z.of_N c - 48.

(** A calendar date in the ISO 8601 form YYYY-MM-DD. *)
Definition is_iso_date (s : jsstring) : bool :=
  match s with
  | [y1; y2; y3; y4; h1; m1; m2; h2; d1; d2] =>
      forallb is_digit [y1; y2; y3; y4; m1; m2; d1; d2]
      && (h1 =? 45)%N && (h2 =? 45)%N
      && (let m := 10 * digit_value m1 + digit_value m2 in
          (1 <=? m) && (m <=? 12))
      && (let d := 10 * digit_value d1 + digit_value d2 in
          (1 <=? d) && (d <=? 31))
  | _ => false
  end.

End JSDate.

(* ================================================================== *)
(** * Data model *)

(** Values that travel in a request body. *)
#[warnings="-register-all"] Inductive JsValue : Type :=
| JsUndefined
| JsNull
| JsBoolean (b : bool)
| JsNumber (q : Q)
| JsString (s : jsstring)
| JsObject (props : list (string * JsValue)).

Inductive JsType : Type :=
| TUndefined | TObject | TBoolean | TNumber | TString.

(** The [typeof] operator. *)
Definition typeof (v : JsValue) : JsType :=
  match v with
  | JsUndefined => TUndefined
  | JsNull => TObject
  | JsBoolean _ => TBoolean
  | JsNumber _ => TNumber
  | JsString _ => TString
  | JsObject _ => TObject
  end.

(** Property read [obj.key]; an absent property reads [undefined]. *)
Fixpoint lookup_prop (key : string) (props : list (string * JsValue)) : JsValue :=
  match props with
  | [] => JsUndefined
  | (k, v) :: rest => if String.eqb k key then v else lookup_prop key rest
  end.

Definition get_prop (key : string) (v : JsValue) : JsValue :=
  match v with
  | JsObject props => lookup_prop key props
  | _ => JsUndefined
  end.

Definition keys_of (v : JsValue) : list string :=
  match v with
  | JsObject props => map fst props
  | _ => []
  end.

(** One chat exchange, as the backend returns it. *)
Record ChatEntry : Type := mkChatEntry {
  entry_message : jsstring;
  entry_response : jsstring
}.

Record WeatherSnapshot : Type := mkWeather {
  temperature : Q;
  feels_like : Q;
  humidity : Q;
  condition : jsstring;
  location : jsstring
}.

Record NewsItem : Type := mkNewsItem {
  title : jsstring;
  source : jsstring;
  time : jsstring
}.

(** The body of [GET /news]: [response.data.news] is the list. *)
Record NewsData : Type := mkNewsData {
  data_news : list NewsItem
}.

(** The routine form, lines 38-43: four strings, as the inputs hold them. *)
Record Routine : Type := mkRoutine {
  sleep_hours : jsstring;
  water_glasses : jsstring;
  exercise_minutes : jsstring;
  mood : jsstring
}.

Definition empty_routine : Routine :=
  {| sleep_hours := js ""; water_glasses := js "";
     exercise_minutes := js ""; mood := js "" |}.

(** The spread [...routine] inside an object literal. *)
Definition spread_routine (r : Routine) : list (string * JsValue) :=
  [ ("sleep_hours"%string, JsString (sleep_hours r));
    ("water_glasses"%string, JsString (water_glasses r));
    ("exercise_minutes"%string, JsString (exercise_minutes r));
    ("mood"%string, JsString (mood r)) ].

(** The options of the mood [select], lines 436-440. *)
Inductive MoodOption : Type :=
| SelectMood | Excellent | Good | Okay | Low.

Definition option_value (o : MoodOption) : jsstring :=
  match o with
  | SelectMood => js ""
  | Excellent => js "excellent"
  | Good => js "good"
  | Okay => js "okay"
  | Low => js "low"
  end.

Inductive Tab : Type := Daily | RoutineTab | NewsTab.

(** The hook state of [App], lines 32-44. *)
Record State : Type := mkState {
  message : jsstring;
  chatHistory : list ChatEntry;
  isLoading : bool;
  isListening : bool;
  weather : option WeatherSnapshot;
  news : list NewsItem;
  routine : Routine;
  activeTab : Tab
}.

Definition initial_state : State :=
  {| message := js "";
     chatHistory := [];
     isLoading := false;
     isListening := false;
     weather := None;
     news := [];
     routine := empty_routine;
     activeTab := Daily |}.

(** ** The world around the component *)

Inductive Method : Type := GET | POST.

Record Request : Type := mkRequest {
  req_method : Method;
  req_url : string;
  req_body : option JsValue
}.

(** Which handler is suspended on a request. *)
Inductive Awaiting : Type :=
| AwaitWeather | AwaitNews | AwaitChatHistory | AwaitChat | AwaitRoutine.

Definition Awaiting_eqb (a b : Awaiting) : bool :=
  match a, b with
  | AwaitWeather, AwaitWeather
  | AwaitNews, AwaitNews
  | AwaitChatHistory, AwaitChatHistory
  | AwaitChat, AwaitChat
  | AwaitRoutine, AwaitRoutine => true
  | _, _ => false
  end.

(** A rejection reason. *)
Definition Error := jsstring.

Inductive ToastKind : Type := ToastSuccess | ToastError | ToastInfo.

Record Toast : Type := mkToast {
  toast_kind : ToastKind;
  toast_text : string
}.

(** One [console.error(label, error)]. *)
Record LogEntry : Type := mkLogEntry {
  log_label : string;
  log_error : Error
}.

(** What the speech recognition object has been asked to do. *)
Inductive RecognitionCall : Type := RecStart | RecStop.

Record World : Type := mkWorld {
  BACKEND_URL : string;           (* process.env.REACT_APP_BACKEND_URL *)
  ui : State;
  recognitionRef : bool;          (* is recognitionRef.current set *)
  recognition_calls : list RecognitionCall;
  toasts : list Toast;
  console : list LogEntry;
  requests : list Request;        (* every request issued, oldest first *)
  in_flight : list (nat * Awaiting);  (* requests not yet settled *)
  next_request : nat;
  unhandled : list Error          (* rejections no handler caught *)
}.

Definition API (w : World) : string := (BACKEND_URL w ++ "/api")%string.

(* ================================================================== *)
(** * The handler monad: world passing with exceptions *)

Inductive Completion (A : Type) : Type :=
| Normal (value : A)
| Throw (reason : Error).
Arguments Normal {A} value.
Arguments Throw {A} reason.

Definition M (A : Type) : Type := World -> Completion A * World.

Definition ret {A} (a : A) : M A := fun w => (Normal a, w).

Definition bind {A B} (c : M A) (k : A -> M B) : M B :=
  fun w =>
    match c w with
    | (Normal a, w1) => k a w1
    | (Throw e, w1) => (Throw e, w1)
    end.

Definition throw {A} (e : Error) : M A := fun w => (Throw e, w).

Declare Scope handler_scope.
Delimit Scope handler_scope with handler.
Notation "x <- c1 ;; c2" := (bind c1 (fun x => c2))
  (at level 61, c1 at next level, right associativity) : handler_scope.
Notation "c1 ;; c2" := (bind c1 (fun _ => c2))
  (at level 61, right associativity) : handler_scope.
Local Open Scope handler_scope.

(** [try { body } catch (error) { handler error }] *)
Definition try_catch {A} (body : M A) (handler : Error -> M A) : M A :=
  fun w =>
    match body w with
    | (Normal a, w1) => (Normal a, w1)
    | (Throw e, w1) => handler e w1
    end.

(** [try { body } catch (error) { handler error } finally { finalizer }]:
    the finalizer runs on every path, and the completion is the one of
    the try-catch unless the finalizer throws itself. *)
Definition try_catch_finally {A} (body : M A) (handler : Error -> M A)
    (finalizer : M unit) : M A :=
  fun w =>
    match try_catch body handler w with
    | (c, w1) =>
        match finalizer w1 with
        | (Normal _, w2) => (c, w2)
        | (Throw e, w2) => (Throw e, w2)
        end
    end.

(** How a request settles. *)
Inductive Outcome (A : Type) : Type :=
| Fulfilled (data : A)
| Rejected (error : Error).
Arguments Fulfilled {A} data.
Arguments Rejected {A} error.

(** [await] on a settled promise: its value, or its reason thrown. *)
Definition await {A} (settled : Outcome A) : M A :=
  match settled with
  | Fulfilled data => ret data
  | Rejected error => throw error
  end.

(** ** Primitive effects *)

Definition with_ui (f : State -> State) (w : World) : World :=
  {| BACKEND_URL := BACKEND_URL w;
     ui := f (ui w);
     recognitionRef := recognitionRef w;
     recognition_calls := recognition_calls w;
     toasts := toasts w;
     console := console w;
     requests := requests w;
     in_flight := in_flight w;
     next_request := next_request w;
     unhandled := unhandled w |}.

Definition read {A} (f : World -> A) : M A := fun w => (Normal (f w), w).

Definition update (f : State -> State) : M unit :=
  fun w => (Normal tt, with_ui f w).

Definition setMessage (v : jsstring) : M unit :=
  update (fun s =>
    {| message := v; chatHistory := chatHistory s; isLoading := isLoading s;
       isListening := isListening s; weather := weather s; news := news s;
       routine := routine s; activeTab := activeTab s |}).

(** The setter is called with an updater function at line 128 and with a
    value at line 108; a value [v] is the updater [fun _ => v]. *)
Definition setChatHistory (f : list ChatEntry -> list ChatEntry) : M unit :=
  update (fun s =>
    {| message := message s; chatHistory := f (chatHistory s);
       isLoading := isLoading s; isListening := isListening s;
       weather := weather s; news := news s; routine := routine s;
       activeTab := activeTab s |}).

Definition setIsLoading (b : bool) : M unit :=
  update (fun s =>
    {| message := message s; chatHistory := chatHistory s; isLoading := b;
       isListening := isListening s; weather := weather s; news := news s;
       routine := routine s; activeTab := activeTab s |}).

Definition setIsListening (b : bool) : M unit :=
  update (fun s =>
    {| message := message s; chatHistory := chatHistory s;
       isLoading := isLoading s; isListening := b; weather := weather s;
       news := news s; routine := routine s; activeTab := activeTab s |}).

Definition setWeather (v : option WeatherSnapshot) : M unit :=
  update (fun s =>
    {| message := message s; chatHistory := chatHistory s;
       isLoading := isLoading s; isListening := isListening s; weather := v;
       news := news s; routine := routine s; activeTab := activeTab s |}).

Definition setNews (v : list NewsItem) : M unit :=
  update (fun s =>
    {| message := message s; chatHistory := chatHistory s;
       isLoading := isLoading s; isListening := isListening s;
       weather := weather s; news := v; routine := routine s;
       activeTab := activeTab s |}).

Definition setRoutine (v : Routine) : M unit :=
  update (fun s =>
    {| message := message s; chatHistory := chatHistory s;
       isLoading := isLoading s; isListening := isListening s;
       weather := weather s; news := news s; routine := v;
       activeTab := activeTab s |}).

Definition setActiveTab (v : Tab) : M unit :=
  update (fun s =>
    {| message := message s; chatHistory := chatHistory s;
       isLoading := isLoading s; isListening := isListening s;
       weather := weather s; news := news s; routine := routine s;
       activeTab := v |}).

(** [toast.success], [toast.error], [toast.info]. *)
Definition toast (kind : ToastKind) (text : string) : M unit :=
  fun w =>
    (Normal tt,
     {| BACKEND_URL := BACKEND_URL w; ui := ui w;
        recognitionRef := recognitionRef w;
        recognition_calls := recognition_calls w;
        toasts := toasts w ++ [mkToast kind text];
        console := console w; requests := requests w;
        in_flight := in_flight w; next_request := next_request w;
        unhandled := unhandled w |}).

Definition console_error (label : string) (error : Error) : M unit :=
  fun w =>
    (Normal tt,
     {| BACKEND_URL := BACKEND_URL w; ui := ui w;
        recognitionRef := recognitionRef w;
        recognition_calls := recognition_calls w;
        toasts := toasts w;
        console := console w ++ [mkLogEntry label error];
        requests := requests w;
        in_flight := in_flight w; next_request := next_request w;
        unhandled := unhandled w |}).

(** [axios.get] and [axios.post]: the request goes out and the calling
    handler is suspended on it until it settles. *)
Definition axios (method : Method) (url : string) (body : option JsValue)
    (suspended : Awaiting) : M unit :=
  fun w =>
    (Normal tt,
     {| BACKEND_URL := BACKEND_URL w; ui := ui w;
        recognitionRef := recognitionRef w;
        recognition_calls := recognition_calls w;
        toasts := toasts w; console := console w;
        requests := requests w ++ [mkRequest method url body];
        in_flight := in_flight w ++ [(next_request w, suspended)];
        next_request := S (next_request w);
        unhandled := unhandled w |}).

Definition axios_get (url : string) (suspended : Awaiting) : M unit :=
  axios GET url None suspended.
Definition axios_post (url : string) (body : JsValue) (suspended : Awaiting)
    : M unit :=
  axios POST url (Some body) suspended.

Definition recognition_call (c : RecognitionCall) : M unit :=
  fun w =>
    (Normal tt,
     {| BACKEND_URL := BACKEND_URL w; ui := ui w;
        recognitionRef := recognitionRef w;
        recognition_calls := recognition_calls w ++ [c];
        toasts := toasts w; console := console w; requests := requests w;
        in_flight := in_flight w; next_request := next_request w;
        unhandled := unhandled w |}).

Definition set_recognitionRef (b : bool) : M unit :=
  fun w =>
    (Normal tt,
     {| BACKEND_URL := BACKEND_URL w; ui := ui w;
        recognitionRef := b;
        recognition_calls := recognition_calls w;
        toasts := toasts w; console := console w; requests := requests w;
        in_flight := in_flight w; next_request := next_request w;
        unhandled := unhandled w |}).

(* ================================================================== *)
(** * The handlers of [App] *)

(** Lines 87-94.  Up to the [await]: *)
Definition loadWeather : M unit :=
  api <- read API ;;
  axios_get (api ++ "/weather") AwaitWeather.

(** and from the [await] on. *)
Definition loadWeather_resumed (settled : Outcome WeatherSnapshot) : M unit :=
  try_catch
    (response <- await settled ;;
     setWeather (Some response))
    (fun error => console_error "Weather loading error:" error).

(** Lines 96-103. *)
Definition loadNews : M unit :=
  api <- read API ;;
  axios_get (api ++ "/news") AwaitNews.

Definition loadNews_resumed (settled : Outcome NewsData) : M unit :=
  try_catch
    (response <- await settled ;;
     setNews (data_news response))
    (fun error => console_error "News loading error:" error).

(** Lines 105-112. *)
Definition loadChatHistory : M unit :=
  api <- read API ;;
  axios_get (api ++ "/chat/history/default_user") AwaitChatHistory.

Definition loadChatHistory_resumed (settled : Outcome (list ChatEntry))
    : M unit :=
  try_catch
    (response <- await settled ;;
     setChatHistory (fun _ => response))
    (fun error => console_error "Chat history loading error:" error).

(** The body of [POST /chat], lines 122-126. *)
Definition chat_body (userMessage : jsstring) : JsValue :=
  JsObject
    [ ("message"%string, JsString userMessage);
      ("user_id"%string, JsString (js "default_user"));
      ("location"%string,
       JsObject [ ("lat"%string, JsNumber 28.6139%Q);
                  ("lon"%string, JsNumber 77.2090%Q) ]) ].

(** Lines 114-136, up to the [await] of line 122. *)
Definition handleSendMessage : M unit :=
  message <- read (fun w => message (ui w)) ;;
  if negb (JS.truthy (JS.trim message)) then ret tt
  else
    let userMessage := message in
    setMessage (js "") ;;
    setIsLoading true ;;
    api <- read API ;;
    axios_post (api ++ "/chat") (chat_body userMessage) AwaitChat.

(** Lines 121-135, from the [await] on. *)
Definition handleSendMessage_resumed (settled : Outcome ChatEntry) : M unit :=
  try_catch_finally
    (response <- await settled ;;
     setChatHistory (fun prev => response :: prev) ;;
     toast ToastSuccess "Got your recommendation!")
    (fun error =>
       console_error "Chat error:" error ;;
       toast ToastError "Failed to get recommendation. Please try again.")
    (setIsLoading false).

(** The chat list as rendered, line 267: [chatHistory.slice().reverse()]. *)
Definition displayed_history (s : State) : list ChatEntry :=
  rev (chatHistory s).

(** Lines 138-152. *)
Definition handleVoiceInput : M unit :=
  ref <- read recognitionRef ;;
  if negb ref then
    toast ToastError "Voice recognition not supported in this browser."
  else
    listening <- read (fun w => isListening (ui w)) ;;
    if listening then
      recognition_call RecStop ;;
      setIsListening false
    else
      recognition_call RecStart ;;
      setIsListening true ;;
      toast ToastInfo "Listening... Speak now!".

(** The callbacks installed at lines 58-71. *)
Definition recognition_onresult (transcript : jsstring) : M unit :=
  setMessage transcript ;;
  setIsListening false.

Definition recognition_onerror : M unit :=
  setIsListening false ;;
  toast ToastError "Voice recognition error. Please try again.".

Definition recognition_onend : M unit :=
  setIsListening false.

(** The date of line 158: [new Date().toISOString().split('T')[0]], where
    [now] is the time value that [new Date()] reads. *)
Definition today (now : JSDate.time) : jsstring :=
  JS.at_index (JS.split 84 (* T *) (JSDate.toISOString now)) 0.

(** The body of [POST /routine], lines 156-160. *)
Definition routine_body (now : JSDate.time) (r : Routine) : JsValue :=
  JsObject
    ([ ("user_id"%string, JsString (js "default_user"));
       ("date"%string, JsString (today now)) ]
     ++ spread_routine r).

(** Lines 154-167, up to the [await]. *)
Definition handleRoutineSave (now : JSDate.time) : M unit :=
  routine <- read (fun w => routine (ui w)) ;;
  api <- read API ;;
  axios_post (api ++ "/routine") (routine_body now routine) AwaitRoutine.

(** Lines 155-166, from the [await] on. *)
Definition handleRoutineSave_resumed (settled : Outcome unit) : M unit :=
  try_catch
    (_ <- await settled ;;
     toast ToastSuccess "Routine saved successfully!" ;;
     setRoutine
       {| sleep_hours := js ""; water_glasses := js "";
          exercise_minutes := js ""; mood := js "" |})
    (fun error =>
       console_error "Routine save error:" error ;;
       toast ToastError "Failed to save routine.").

(** Lines 175-180. *)
Definition quickSuggestions : list jsstring :=
  [ js "What should I eat for breakfast?";
    js "Suggest clothes for today's weather";
    js "Plan my day activities";
    js "Weekend entertainment ideas" ].

(** The three quick actions, lines 348-371. *)
Inductive QuickAction : Type := FoodSuggestion | OutfitIdea | DayPlanning.

Definition quick_action_text (a : QuickAction) : jsstring :=
  match a with
  | FoodSuggestion => js "What should I eat for lunch based on today's weather?"
  | OutfitIdea => js "Suggest clothes for today's weather"
  | DayPlanning => js "Plan productive activities for today"
  end.

(** The [disabled] attribute of the send button, line 315. *)
Definition send_disabled (s : State) : bool :=
  negb (JS.truthy (JS.trim (message s))) || isLoading s.

(** The routine form handlers, lines 393, 407, 421 and 433:
    [setRoutine({...routine, field: e.target.value})]. *)
Definition change_sleep_hours (v : jsstring) : M unit :=
  r <- read (fun w => routine (ui w)) ;;
  setRoutine {| sleep_hours := v; water_glasses := water_glasses r;
                exercise_minutes := exercise_minutes r; mood := mood r |}.

Definition change_water_glasses (v : jsstring) : M unit :=
  r <- read (fun w => routine (ui w)) ;;
  setRoutine {| sleep_hours := sleep_hours r; water_glasses := v;
                exercise_minutes := exercise_minutes r; mood := mood r |}.

Definition change_exercise_minutes (v : jsstring) : M unit :=
  r <- read (fun w => routine (ui w)) ;;
  setRoutine {| sleep_hours := sleep_hours r;
                water_glasses := water_glasses r;
                exercise_minutes := v; mood := mood r |}.

Definition change_mood (v : jsstring) : M unit :=
  r <- read (fun w => routine (ui w)) ;;
  setRoutine {| sleep_hours := sleep_hours r;
                water_glasses := water_glasses r;
                exercise_minutes := exercise_minutes r; mood := v |}.

(* ================================================================== *)
(** * Events and the transition function *)

(** A settled request, with the payload its endpoint answers. *)
Inductive Response : Type :=
| WeatherResponse (settled : Outcome WeatherSnapshot)
| NewsResponse (settled : Outcome NewsData)
| ChatHistoryResponse (settled : Outcome (list ChatEntry))
| ChatResponse (settled : Outcome ChatEntry)
| RoutineResponse (settled : Outcome unit).

Definition awaited_by (r : Response) : Awaiting :=
  match r with
  | WeatherResponse _ => AwaitWeather
  | NewsResponse _ => AwaitNews
  | ChatHistoryResponse _ => AwaitChatHistory
  | ChatResponse _ => AwaitChat
  | RoutineResponse _ => AwaitRoutine
  end.

Definition resume (r : Response) : M unit :=
  match r with
  | WeatherResponse settled => loadWeather_resumed settled
  | NewsResponse settled => loadNews_resumed settled
  | ChatHistoryResponse settled => loadChatHistory_resumed settled
  | ChatResponse settled => handleSendMessage_resumed settled
  | RoutineResponse settled => handleRoutineSave_resumed settled
  end.

Inductive Event : Type :=
| ChangeMessage (value : jsstring)           (* line 300 *)
| KeyPress (key : jsstring)                  (* line 302 *)
| ClickMic                                   (* line 306 *)
| ClickSend                                  (* line 314 *)
| ClickSuggestion (index : nat)              (* line 258 *)
| ClickQuickAction (action : QuickAction)    (* lines 351, 359, 367 *)
| SelectTab (tab : Tab)                      (* line 216 *)
| ChangeSleepHours (value : jsstring)        (* line 393 *)
| ChangeWaterGlasses (value : jsstring)      (* line 407 *)
| ChangeExerciseMinutes (value : jsstring)   (* line 421 *)
| ChangeMood (chosen : MoodOption)           (* line 433 *)
| ClickSaveRoutine (now : JSDate.time)       (* line 447 *)
| RecognitionResult (transcript : jsstring)  (* line 58 *)
| RecognitionError                           (* line 64 *)
| RecognitionEnd                             (* line 69 *)
| Settled (id : nat) (response : Response).

Definition is_in_flight (id : nat) (a : Awaiting) (w : World) : bool :=
  existsb (fun p => Nat.eqb (fst p) id && Awaiting_eqb (snd p) a) (in_flight w).

Definition settle (id : nat) : M unit :=
  fun w =>
    (Normal tt,
     {| BACKEND_URL := BACKEND_URL w; ui := ui w;
        recognitionRef := recognitionRef w;
        recognition_calls := recognition_calls w;
        toasts := toasts w; console := console w; requests := requests w;
        in_flight := filter (fun p => negb (Nat.eqb (fst p) id)) (in_flight w);
        next_request := next_request w;
        unhandled := unhandled w |}).

(** What the event does: the handler bound to the control, when the
    control is there and enabled.  The tabs component decides which panel
    is mounted; the model lets the controls of every panel fire, which
    only adds event sequences. *)
Definition on_event (e : Event) : M unit :=
  match e with
  | ChangeMessage value => setMessage value
  | KeyPress key =>
      if jsstring_eqb key (js "Enter") then handleSendMessage else ret tt
  | ClickMic => handleVoiceInput
  | ClickSend =>
      disabled <- read (fun w => send_disabled (ui w)) ;;
      if disabled then ret tt else handleSendMessage
  | ClickSuggestion index =>
      history <- read (fun w => chatHistory (ui w)) ;;
      match history, nth_error quickSuggestions index with
      | [], Some suggestion => setMessage suggestion
      | _, _ => ret tt
      end
  | ClickQuickAction action => setMessage (quick_action_text action)
  | SelectTab tab => setActiveTab tab
  | ChangeSleepHours value => change_sleep_hours value
  | ChangeWaterGlasses value => change_water_glasses value
  | ChangeExerciseMinutes value => change_exercise_minutes value
  | ChangeMood chosen => change_mood (option_value chosen)
  | ClickSaveRoutine now => handleRoutineSave now
  | RecognitionResult transcript =>
      ref <- read recognitionRef ;;
      if ref then recognition_onresult transcript else ret tt
  | RecognitionError =>
      ref <- read recognitionRef ;;
      if ref then recognition_onerror else ret tt
  | RecognitionEnd =>
      ref <- read recognitionRef ;;
      if ref then recognition_onend else ret tt
  | Settled id response =>
      waiting <- read (is_in_flight id (awaited_by response)) ;;
      if waiting then settle id ;; resume response else ret tt
  end.

(** A handler that throws leaves an uncaught error behind. *)
Definition dispatch (handler : M unit) (w : World) : World :=
  match handler w with
  | (Normal _, w1) => w1
  | (Throw e, w1) =>
      {| BACKEND_URL := BACKEND_URL w1; ui := ui w1;
         recognitionRef := recognitionRef w1;
         recognition_calls := recognition_calls w1;
         toasts := toasts w1; console := console w1;
         requests := requests w1; in_flight := in_flight w1;
         next_request := next_request w1;
         unhandled := unhandled w1 ++ [e] |}
  end.

Definition step (w : World) (e : Event) : World := dispatch (on_event e) w.

Definition run (w : World) (events : list Event) : World :=
  fold_left step events w.

(** The world before the first render. *)
Definition initial_world (backend : string) : World :=
  {| BACKEND_URL := backend;
     ui := initial_state;
     recognitionRef := false;
     recognition_calls := [];
     toasts := [];
     console := [];
     requests := [];
     in_flight := [];
     next_request := 0%nat;
     unhandled := [] |}.

(** The mount effects, lines 50-80; [speech] tells whether the browser has
    a speech recognition constructor. *)
Definition on_mount (speech : bool) : M unit :=
  (if speech then set_recognitionRef true else ret tt) ;;
  loadWeather ;;
  loadNews ;;
  loadChatHistory.

(** The world once the effects of the first render have run.  The
    render itself is taken as done: as committed, the JSX of line 227
    names [News], which no import binds (line 23 imports [Newspaper]). *)
Definition mount (backend : string) (speech : bool) : World :=
  dispatch (on_mount speech) (initial_world backend).

(** How many requests of a kind are outstanding. *)
Definition count_kind (a : Awaiting) (l : list (nat * Awaiting)) : nat :=
  List.length (filter (fun p => Awaiting_eqb (snd p) a) l).

Definition count_in_flight (a : Awaiting) (w : World) : nat :=
  count_kind a (in_flight w).

(* ================================================================== *)
(** * Notions the properties are stated with *)

(** All four fields of the routine form hold something. *)
Definition populated (r : Routine) : bool :=
  JS.truthy (sleep_hours r) && JS.truthy (water_glasses r)
  && JS.truthy (exercise_minutes r) && JS.truthy (mood r).

(** [p] holds of 0, 1, ..., n-1. *)
Definition check_next (p : Z -> bool) (acc : Z * bool) : Z * bool :=
  (fst acc + 1, snd acc && p (fst acc)).

Definition all_below (n : N) (p : Z -> bool) : bool :=
  snd (N.iter n (check_next p) (0, true)).

(** The definitions of ECMAScript (Time Values and Time Range, Year
    Number, Month Number, Date Number), which the calendar arithmetic of
    [JSDate] is checked against. *)
Module ES.

Definition DaysInYear (y : Z) : Z :=
  if negb (y mod 4 =? 0) then 365
  else if negb (y mod 100 =? 0) then 366
  else if negb (y mod 400 =? 0) then 365
  else 366.

Definition DayFromYear (y : Z) : Z :=
  365 * (y - 1970) + (y - 1969) / 4 - (y - 1901) / 100 + (y - 1601) / 400.

Definition InLeapYear (y : Z) : Z :=
  if DaysInYear y =? 366 then 1 else 0.

(** The month, from 0, of the day [d] within a year. *)
Definition MonthFromDay (d leap : Z) : Z :=
  if d <? 31 then 0
  else if d <? 59 + leap then 1
  else if d <? 90 + leap then 2
  else if d <? 120 + leap then 3
  else if d <? 151 + leap then 4
  else if d <? 181 + leap then 5
  else if d <? 212 + leap then 6
  else if d <? 243 + leap then 7
  else if d <? 273 + leap then 8
  else if d <? 304 + leap then 9
  else if d <? 334 + leap then 10
  else 11.

(** The day of the month of the day [d] within a year. *)
Definition DateFromDay (d leap : Z) : Z :=
  match MonthFromDay d leap with
  | 0 => d + 1
  | 1 => d - 30
  | 2 => d - 58 - leap
  | 3 => d - 89 - leap
  | 4 => d - 119 - leap
  | 5 => d - 150 - leap
  | 6 => d - 180 - leap
  | 7 => d - 211 - leap
  | 8 => d - 242 - leap
  | 9 => d - 272 - leap
  | 10 => d - 303 - leap
  | _ => d - 333 - leap
  end.

End ES.

(** The day within the calendar year of the day [doy] of the year that
    starts in March: January and February, from 306 on, belong to the
    next calendar year. *)
Definition day_within_year (doy leap : Z) : Z :=
  if doy <? 306 then doy + 59 + leap else doy - 306.

(** On the day [doy] the month and the day of the month of [JSDate] are
    those of the tables of ECMAScript, in a common and in a leap year. *)
Definition tables_agree_on (leap doy : Z) : bool :=
  (JSDate.month_of_year doy - 1
   =? ES.MonthFromDay (day_within_year doy leap) leap)
  && (JSDate.day_of_month doy
      =? ES.DateFromDay (day_within_year doy leap) leap).

(** The time values of the years 0 to 9999. *)
Definition four_digit_year (t : JSDate.time) : Prop :=
  -62167219200000 <= t <= 253402300799999.

(** The rejection of the request a handler is suspended on. *)
Definition rejection (a : Awaiting) (error : Error) : Response :=
  match a with
  | AwaitWeather => WeatherResponse (Rejected error)
  | AwaitNews => NewsResponse (Rejected error)
  | AwaitChatHistory => ChatHistoryResponse (Rejected error)
  | AwaitChat => ChatResponse (Rejected error)
  | AwaitRoutine => RoutineResponse (Rejected error)
  end.

(** The label each [catch] logs under, lines 92, 101, 110, 131 and 164. *)
Definition failure_label (a : Awaiting) : string :=
  match a with
  | AwaitWeather => "Weather loading error:"
  | AwaitNews => "News loading error:"
  | AwaitChatHistory => "Chat history loading error:"
  | AwaitChat => "Chat error:"
  | AwaitRoutine => "Routine save error:"
  end.

(** The toasts each [catch] raises: lines 132 and 165, and none in the
    three loaders. *)
Definition failure_toasts (a : Awaiting) : list Toast :=
  match a with
  | AwaitWeather | AwaitNews | AwaitChatHistory => []
  | AwaitChat =>
      [mkToast ToastError "Failed to get recommendation. Please try again."]
  | AwaitRoutine => [mkToast ToastError "Failed to save routine."]
  end.

(** Request identifiers are handed out in order and never twice. *)
Definition ids_fresh (w : World) : Prop :=
  NoDup (map fst (in_flight w))
  /\ forall p, In p (in_flight w) -> (fst p < next_request w)%nat.

(** [isLoading] tells whether a chat request is outstanding, and there is
    at most one. *)
Definition chat_guarded (w : World) : Prop :=
  count_in_flight AwaitChat w = if isLoading (ui w) then 1%nat else 0%nat.

(** The mood held is the value of one of the options of the select. *)
Definition mood_chosen (w : World) : Prop :=
  exists o, mood (routine (ui w)) = option_value o.

(** The event delivers a fulfilled response to a handler of kind [a]. *)
Definition fulfils (e : Event) (a : Awaiting) : bool :=
  match e with
  | Settled _ (WeatherResponse (Fulfilled _)) => Awaiting_eqb a AwaitWeather
  | Settled _ (NewsResponse (Fulfilled _)) => Awaiting_eqb a AwaitNews
  | Settled _ (ChatHistoryResponse (Fulfilled _)) => Awaiting_eqb a AwaitChatHistory
  | Settled _ (ChatResponse (Fulfilled _)) => Awaiting_eqb a AwaitChat
  | Settled _ (RoutineResponse (Fulfilled _)) => Awaiting_eqb a AwaitRoutine
  | _ => false
  end.

(** An event other than the Enter key pressed in the message input. *)
Definition not_enter_key (e : Event) : bool :=
  match e with
  | KeyPress key => negb (jsstring_eqb key (js "Enter"))
  | _ => true
  end.

(** ** Scenarios *)

Definition demo_backend : string := "https://backend.example".

Definition demo_now : JSDate.time := 1700000000123.

(** The user has typed a message with spaces around it. *)
Definition typed_hello : World :=
  run (mount demo_backend true) [ChangeMessage (js "  hello  ")].

(** The user has typed a space, a tab and a no-break space. *)
Definition typed_blank : World :=
  run (mount demo_backend true) [ChangeMessage [0x20; 0x09; 0xA0]%N].

(** The routine tab, with the form as it comes up. *)
Definition routine_tab_opened : World :=
  run (mount demo_backend true) [SelectTab RoutineTab].

(** The routine form filled in. *)
Definition fill_routine : list Event :=
  [ SelectTab RoutineTab;
    ChangeSleepHours (js "7.5");
    ChangeWaterGlasses (js "8");
    ChangeExerciseMinutes (js "30");
    ChangeMood Good ].

Definition routine_filled : World :=
  run (mount demo_backend true) fill_routine.

(** Save clicked twice in a row. *)
Definition save_twice : list Event :=
  [ SelectTab RoutineTab; ClickSaveRoutine demo_now; ClickSaveRoutine demo_now ].

(** A message sent with the button, then a second one with the Enter key
    while the first is outstanding. *)
Definition send_then_enter : list Event :=
  [ ChangeMessage (js "first"); ClickSend;
    ChangeMessage (js "second"); KeyPress (js "Enter") ].

(** Messages sent with the button only; the second click finds it
    disabled. *)
Definition send_by_button : list Event :=
  [ ChangeMessage (js "first"); ClickSend;
    ChangeMessage (js "second"); ClickSend ].

(** Two messages sent and answered, one after the other. *)
Definition two_exchanges : list Event :=
  [ ChangeMessage (js "breakfast?"); ClickSend;
    Settled 3 (ChatResponse
                 (Fulfilled (mkChatEntry (js "breakfast?") (js "Poha."))));
    ChangeMessage (js "and for lunch?"); KeyPress (js "Enter");
    Settled 4 (ChatResponse
                 (Fulfilled (mkChatEntry (js "and for lunch?")
                               (js "Dal and rice.")))) ].

(** The weather request of the mount is rejected. *)
Definition weather_fails : list Event :=
  [ Settled 0 (WeatherResponse (Rejected (js "Network Error"))) ].

(* ================================================================== *)
(** * The rest of the component *)

(** [String.prototype.includes]: does [needle] occur in [s]. *)
Fixpoint starts_with (needle s : jsstring) : bool :=
  match needle, s with
  | [], _ => true
  | _ :: _, [] => false
  | x :: needle', c :: s' => (x =? c)%N && starts_with needle' s'
  end.

Fixpoint includes (needle s : jsstring) : bool :=
  starts_with needle s
  || match s with
     | [] => false
     | _ :: s' => includes needle s'
     end.

(** [needle] occurs in [s]. *)
Definition occurs_in (needle s : jsstring) : Prop :=
  exists before after, s = before ++ needle ++ after.

(** The icons of lines 170-172. *)
Inductive Icon : Type := CloudRainIcon | CloudIcon | SunIcon.

(** Lines 169-173.  [condition] is [None] when it is [null] or
    [undefined], which [?.] turns into a falsy [undefined]. *)
Definition getWeatherIcon (condition : option jsstring) : Icon :=
  if match condition with
     | Some c => includes (js "rain") c
     | None => false
     end
  then CloudRainIcon
  else if match condition with
          | Some c => includes (js "cloud") c
          | None => false
          end
  then CloudIcon
  else SunIcon.

(** The events of the routine form, lines 393, 407, 421 and 433. *)
Inductive RoutineField : Type :=
| SleepHours | WaterGlasses | ExerciseMinutes | Mood.

Definition field_value (f : RoutineField) (r : Routine) : jsstring :=
  match f with
  | SleepHours => sleep_hours r
  | WaterGlasses => water_glasses r
  | ExerciseMinutes => exercise_minutes r
  | Mood => mood r
  end.

Definition RoutineField_eqb (f g : RoutineField) : bool :=
  match f, g with
  | SleepHours, SleepHours
  | WaterGlasses, WaterGlasses
  | ExerciseMinutes, ExerciseMinutes
  | Mood, Mood => true
  | _, _ => false
  end.

(** The field an event writes and the value it writes there. *)
Definition form_edit (e : Event) : option (RoutineField * jsstring) :=
  match e with
  | ChangeSleepHours v => Some (SleepHours, v)
  | ChangeWaterGlasses v => Some (WaterGlasses, v)
  | ChangeExerciseMinutes v => Some (ExerciseMinutes, v)
  | ChangeMood chosen => Some (Mood, option_value chosen)
  | _ => None
  end.

Definition is_form_edit (e : Event) : bool :=
  match form_edit e with
  | Some _ => true
  | None => false
  end.

(** The value of the last edit of [f] among [events], if there is one. *)
Fixpoint last_edit (f : RoutineField) (events : list Event) : option jsstring :=
  match events with
  | [] => None
  | e :: rest =>
      match last_edit f rest with
      | Some v => Some v
      | None =>
          match form_edit e with
          | Some (g, v) => if RoutineField_eqb f g then Some v else None
          | None => None
          end
      end
  end.

(** A response to a chat request, fulfilled or rejected. *)
Definition is_chat_response (e : Event) : bool :=
  match e with
  | Settled _ (ChatResponse _) => true
  | _ => false
  end.

(** A POST with a body to [/chat] or to [/routine]. *)
Definition is_post_to_api (backend : string) (r : Request) : bool :=
  match req_method r, req_body r with
  | POST, Some _ =>
      String.eqb (req_url r) ((backend ++ "/api") ++ "/chat")
      || String.eqb (req_url r) ((backend ++ "/api") ++ "/routine")
  | _, _ => false
  end.

(** The message has a code unit that [trim] keeps. *)
Definition has_visible (s : jsstring) : bool :=
  existsb (fun c => negb (JS.is_trimmed c)) s.

(** The events whose handlers call [axios.post]. *)
Definition may_send (e : Event) : bool :=
  match e with
  | KeyPress _ | ClickSend | ClickSaveRoutine _ => true
  | _ => false
  end.

(** The calls made on the recognition object end with a call to start. *)
Definition last_call_is_start (calls : list RecognitionCall) : Prop :=
  exists earlier, calls = earlier ++ [RecStart].

(** Every call to stop comes right after a call to start. *)
Definition stops_follow_starts (calls : list RecognitionCall) : Prop :=
  forall earlier later,
    calls = earlier ++ RecStop :: later -> last_call_is_start earlier.

(** While the component listens, the last call was to start, and the
    calls to stop are in their places. *)
Definition listening_started (w : World) : Prop :=
  (isListening (ui w) = true -> last_call_is_start (recognition_calls w))
  /\ stops_follow_starts (recognition_calls w).

(** What a loader leaves in its slice: the data of a fulfilled response,
    the initial value after a rejected one. *)
Definition loaded {A B} (initial : B) (store : A -> B) (settled : Outcome A) : B :=
  match settled with
  | Fulfilled data => store data
  | Rejected _ => initial
  end.

(** The browser has speech recognition and the user has typed nothing:
    the world right after the mount. *)
Definition mounted : World := mount demo_backend true.

(** The three handlers of the mount. *)
Definition is_loader (a : Awaiting) : bool :=
  match a with
  | AwaitWeather | AwaitNews | AwaitChatHistory => true
  | AwaitChat | AwaitRoutine => false
  end.

(** The slice a loader fills is at the value of line 33, 36 or 37. *)
Definition slice_initial (a : Awaiting) (s : State) : Prop :=
  match a with
  | AwaitWeather => weather s = None
  | AwaitNews => news s = []
  | AwaitChatHistory => chatHistory s = []
  | AwaitChat | AwaitRoutine => True
  end.

(** The event is a response that writes the slice of the loader [a]
    without being a response to it: only [chatHistory] has a second
    writer, the chat response of line 128. *)
Definition writes_slice_of (a : Awaiting) (e : Event) : bool :=
  match a with
  | AwaitChatHistory => fulfils e AwaitChat
  | _ => false
  end.

(** The chat history arrives while a chat request is outstanding, and the
    chat request then fails. *)
Definition history_lands_during_send : list Event :=
  [ ChangeMessage (js "lunch?"); ClickSend;
    Settled 2 (ChatHistoryResponse
                 (Fulfilled [mkChatEntry (js "breakfast?") (js "Poha.")]));
    Settled 3 (ChatResponse (Rejected (js "Network Error"))) ].

(** A chat exchange is answered, and the chat history request of the
    mount then fails. *)
Definition history_fails_after_answer : list Event :=
  [ ChangeMessage (js "breakfast?"); ClickSend;
    Settled 3 (ChatResponse
                 (Fulfilled (mkChatEntry (js "breakfast?") (js "Poha."))));
    Settled 2 (ChatHistoryResponse (Rejected (js "Network Error"))) ].

(** While the request of a loader is in flight, its slice is at its
    initial value, and there is never more than one such request. *)
Definition loader_waiting (a : Awaiting) (w : World) : Prop :=
  ids_fresh w
  /\ (count_in_flight a w <= 1)%nat
  /\ ((1 <= count_in_flight a w)%nat -> slice_initial a (ui w)).

(* ================================================================== *)
(** * Properties *)

(** ** Strings *)

Lemma trimStart_blank (s : jsstring) :
  forallb JS.is_trimmed s = true -> JS.trimStart s = [].
Proof.
  induction s as [| c rest IH]; simpl; intros H.
  - reflexivity.
  - apply andb_prop in H. destruct H as [Hc Hrest].
    rewrite Hc. now apply IH.
Qed.

Lemma trimStart_nil_blank (s : jsstring) :
  JS.trimStart s = [] -> forallb JS.is_trimmed s = true.
Proof.
  induction s as [| c rest IH]; simpl; intros H.
  - reflexivity.
  - destruct (JS.is_trimmed c) eqn:Hc.
    + simpl. now apply IH.
    + discriminate.
Qed.

Lemma trimStart_suffix (s : jsstring) :
  exists blank, s = blank ++ JS.trimStart s /\ forallb JS.is_trimmed blank = true.
Proof.
  induction s as [| c rest IH]; simpl.
  - exists []. split; reflexivity.
  - destruct (JS.is_trimmed c) eqn:Hc.
    + destruct IH as (blank & Heq & Hblank).
      exists (c :: blank). simpl. rewrite Hc, Hblank. split.
      * now rewrite <- Heq.
      * reflexivity.
    + exists []. split; reflexivity.
Qed.

(** [trim] leaves nothing exactly when every code unit is white space or
    a line terminator. *)
Lemma trim_nil_iff (s : jsstring) :
  JS.trim s = [] <-> forallb JS.is_trimmed s = true.
Proof.
  unfold JS.trim, JS.trimEnd. split.
  - intros H.
    assert (Hrev : JS.trimStart (rev (JS.trimStart s)) = []).
    { apply (f_equal (@rev N)) in H. rewrite rev_involutive in H. exact H. }
    apply trimStart_nil_blank in Hrev.
    rewrite forallb_forall in Hrev.
    destruct (trimStart_suffix s) as (blank & Heq & Hblank).
    rewrite Heq. rewrite forallb_app, Hblank. simpl.
    apply forallb_forall. intros c Hc. apply Hrev.
    now apply in_rev in Hc.
  - intros H. rewrite (trimStart_blank s H). reflexivity.
Qed.

Lemma truthy_trim_false_iff (s : jsstring) :
  JS.truthy (JS.trim s) = false <-> forallb JS.is_trimmed s = true.
Proof.
  rewrite <- trim_nil_iff.
  destruct (JS.trim s); simpl; split; intros H; congruence.
Qed.

Lemma truthy_true_iff (s : jsstring) : JS.truthy s = true <-> s <> [].
Proof. destruct s; simpl; split; intros H; congruence. Qed.

Lemma jsstring_eqb_refl (s : jsstring) : jsstring_eqb s s = true.
Proof.
  induction s as [| c rest IH]; simpl.
  - reflexivity.
  - now rewrite N.eqb_refl, IH.
Qed.

Lemma jsstring_eqb_eq (a b : jsstring) : jsstring_eqb a b = true <-> a = b.
Proof.
  revert b. induction a as [| x a' IH]; destruct b as [| y b']; simpl;
    try (split; intros H; congruence).
  rewrite andb_true_iff, N.eqb_eq, IH.
  split; [intros [-> ->]; reflexivity | intros H; inversion H; auto].
Qed.

Example trim_keeps_inner_space : JS.trim (js "  a b  ") = js "a b".
Proof. reflexivity. Qed.

Example trim_strips_line_ends :
  JS.trim [0x0A; 0xA0; 0x68; 0x69; 0x2028; 0x0D; 0xFEFF]%N = js "hi".
Proof. reflexivity. Qed.

Example split_on_T :
  JS.split 84 (js "2023-11-14T22:13:20.123Z") = [js "2023-11-14"; js "22:13:20.123Z"].
Proof. reflexivity. Qed.

Example split_without_separator : JS.split 84 (js "abc") = [js "abc"].
Proof. reflexivity. Qed.
Example ex_iso_epoch : JSDate.toISOString 0 = js "1970-01-01T00:00:00.000Z".
Proof. reflexivity. Qed.
Example ex_iso_2023 : JSDate.toISOString 1700000000123 = js "2023-11-14T22:13:20.123Z".
Proof. reflexivity. Qed.
Example ex_iso_leap : JSDate.toISOString 1709251199999 = js "2024-02-29T23:59:59.999Z".
Proof. reflexivity. Qed.
Example ex_iso_2000 : JSDate.toISOString 951782400000 = js "2000-02-29T00:00:00.000Z".
Proof. reflexivity. Qed.
Example ex_iso_1900 : JSDate.toISOString (-2203891200000) = js "1900-03-01T00:00:00.000Z".
Proof. reflexivity. Qed.
Example ex_iso_before : JSDate.toISOString (-1) = js "1969-12-31T23:59:59.999Z".
Proof. reflexivity. Qed.
Example ex_iso_max : JSDate.toISOString 8640000000000000 = js "+275760-09-13T00:00:00.000Z".
Proof. reflexivity. Qed.
Example ex_iso_min : JSDate.toISOString (-8640000000000000) = js "-271821-04-20T00:00:00.000Z".
Proof. reflexivity. Qed.
Example ex_iso_y0 : JSDate.toISOString (-62167219200000) = js "0000-01-01T00:00:00.000Z".
Proof. reflexivity. Qed.
Example ex_iso_y9999 : JSDate.toISOString 253402300799999 = js "9999-12-31T23:59:59.999Z".
Proof. reflexivity. Qed.

(** ** The chat flow *)

(** A handler that completes normally is dispatched to the world it left. *)
Lemma dispatch_normal (handler : M unit) (w w1 : World) :
  handler w = (Normal tt, w1) -> dispatch handler w = w1.
Proof. unfold dispatch. intros ->. reflexivity. Qed.

Lemma handleSendMessage_blank (w : World) :
  JS.truthy (JS.trim (message (ui w))) = false ->
  handleSendMessage w = (Normal tt, w).
Proof.
  intros H. unfold handleSendMessage, bind, read. rewrite H. reflexivity.
Qed.

Lemma handleSendMessage_sends (w : World) :
  JS.truthy (JS.trim (message (ui w))) = true ->
  handleSendMessage w =
  (Normal tt,
   {| BACKEND_URL := BACKEND_URL w;
      ui := {| message := js ""; chatHistory := chatHistory (ui w);
               isLoading := true; isListening := isListening (ui w);
               weather := weather (ui w); news := news (ui w);
               routine := routine (ui w); activeTab := activeTab (ui w) |};
      recognitionRef := recognitionRef w;
      recognition_calls := recognition_calls w;
      toasts := toasts w;
      console := console w;
      requests := requests w
        ++ [mkRequest POST (API w ++ "/chat")
              (Some (chat_body (message (ui w))))];
      in_flight := in_flight w ++ [(next_request w, AwaitChat)];
      next_request := S (next_request w);
      unhandled := unhandled w |}).
Proof.
  intros H. unfold handleSendMessage, bind, read. rewrite H. reflexivity.
Qed.

Lemma handleSendMessage_fulfilled (entry : ChatEntry) (w : World) :
  handleSendMessage_resumed (Fulfilled entry) w =
  (Normal tt,
   {| BACKEND_URL := BACKEND_URL w;
      ui := {| message := message (ui w);
               chatHistory := entry :: chatHistory (ui w);
               isLoading := false; isListening := isListening (ui w);
               weather := weather (ui w); news := news (ui w);
               routine := routine (ui w); activeTab := activeTab (ui w) |};
      recognitionRef := recognitionRef w;
      recognition_calls := recognition_calls w;
      toasts := toasts w ++ [mkToast ToastSuccess "Got your recommendation!"];
      console := console w;
      requests := requests w;
      in_flight := in_flight w;
      next_request := next_request w;
      unhandled := unhandled w |}).
Proof. reflexivity. Qed.

Lemma handleSendMessage_rejected (error : Error) (w : World) :
  handleSendMessage_resumed (Rejected error) w =
  (Normal tt,
   {| BACKEND_URL := BACKEND_URL w;
      ui := {| message := message (ui w);
               chatHistory := chatHistory (ui w);
               isLoading := false; isListening := isListening (ui w);
               weather := weather (ui w); news := news (ui w);
               routine := routine (ui w); activeTab := activeTab (ui w) |};
      recognitionRef := recognitionRef w;
      recognition_calls := recognition_calls w;
      toasts := toasts w
        ++ [mkToast ToastError "Failed to get recommendation. Please try again."];
      console := console w ++ [mkLogEntry "Chat error:" error];
      requests := requests w;
      in_flight := in_flight w;
      next_request := next_request w;
      unhandled := unhandled w |}).
Proof. reflexivity. Qed.

(** Pressing Enter in the input runs the handler, whatever [isLoading] is. *)
Lemma step_Enter (w : World) :
  step w (KeyPress (js "Enter")) = dispatch handleSendMessage w.
Proof. reflexivity. Qed.

(** The send button runs the handler when it is enabled. *)
Lemma step_ClickSend_enabled (w : World) :
  send_disabled (ui w) = false ->
  step w ClickSend = dispatch handleSendMessage w.
Proof.
  intros H. unfold step, on_event, dispatch, bind, read. rewrite H. reflexivity.
Qed.

Lemma step_ClickSend_disabled (w : World) :
  send_disabled (ui w) = true -> step w ClickSend = w.
Proof.
  intros H. unfold step, on_event, dispatch, bind, read. rewrite H. reflexivity.
Qed.

(** A response to a request in flight takes it out of flight and resumes
    the handler suspended on it; any other response is dropped. *)
Lemma step_Settled_in_flight (w : World) (id : nat) (r : Response) :
  is_in_flight id (awaited_by r) w = true ->
  step w (Settled id r) = dispatch (settle id ;; resume r)%handler w.
Proof.
  intros H. unfold step, on_event, dispatch. unfold bind at 1, read.
  rewrite H. reflexivity.
Qed.

Lemma step_Settled_unknown (w : World) (id : nat) (r : Response) :
  is_in_flight id (awaited_by r) w = false -> step w (Settled id r) = w.
Proof.
  intros H. unfold step, on_event, dispatch, bind, read. rewrite H. reflexivity.
Qed.

(** C1.  When the message is not empty after trimming, the send handler
    issues exactly one request, a POST to [/chat], and is suspended on it;
    when that request is fulfilled, its entry is put at the head of
    [chatHistory] and no further request goes out, and the list as
    displayed, which is the stored one reversed, ends with that entry. *)
Theorem send_posts_once_and_prepends (w : World) :
  JS.trim (message (ui w)) <> [] ->
  fst (handleSendMessage w) = Normal tt
  /\ requests (dispatch handleSendMessage w)
     = requests w
       ++ [mkRequest POST (API w ++ "/chat") (Some (chat_body (message (ui w))))]
  /\ in_flight (dispatch handleSendMessage w)
     = in_flight w ++ [(next_request w, AwaitChat)]
  /\ forall (later : World) (entry : ChatEntry),
       fst (handleSendMessage_resumed (Fulfilled entry) later) = Normal tt
       /\ requests (dispatch (handleSendMessage_resumed (Fulfilled entry)) later)
          = requests later
       /\ chatHistory
            (ui (dispatch (handleSendMessage_resumed (Fulfilled entry)) later))
          = entry :: chatHistory (ui later)
       /\ displayed_history
            (ui (dispatch (handleSendMessage_resumed (Fulfilled entry)) later))
          = displayed_history (ui later) ++ [entry].
Proof.
  intros Hmsg. apply truthy_true_iff in Hmsg.
  pose proof (handleSendMessage_sends w Hmsg) as Hsend.
  rewrite (dispatch_normal _ _ _ Hsend), Hsend.
  split; [reflexivity |].
  split; [reflexivity |].
  split; [reflexivity |].
  intros later entry.
  rewrite (dispatch_normal _ _ _ (handleSendMessage_fulfilled entry later)).
  repeat split.
Qed.

(** C3.  When the message is empty or made of white space and line
    terminators only, the send handler returns at once: the world, and
    with it the list of requests, is what it was, whether the send button
    or the Enter key triggered it. *)
Theorem blank_message_sends_nothing (w : World) :
  forallb JS.is_trimmed (message (ui w)) = true ->
  handleSendMessage w = (Normal tt, w)
  /\ step w ClickSend = w
  /\ step w (KeyPress (js "Enter")) = w.
Proof.
  intros Hblank. apply truthy_trim_false_iff in Hblank.
  pose proof (handleSendMessage_blank w Hblank) as Hret.
  repeat split.
  - exact Hret.
  - apply step_ClickSend_disabled. unfold send_disabled. now rewrite Hblank.
  - rewrite step_Enter. now apply dispatch_normal.
Qed.

(** C10.  The [message] property of the body is the input text as it
    stood, untrimmed, read before the input is cleared. *)
Theorem chat_body_carries_raw_message (w : World) :
  JS.trim (message (ui w)) <> [] ->
  (exists request,
     requests (dispatch handleSendMessage w) = requests w ++ [request]
     /\ exists body,
          req_body request = Some body
          /\ get_prop "message" body = JsString (message (ui w)))
  /\ message (ui (dispatch handleSendMessage w)) = js "".
Proof.
  intros Hmsg. apply truthy_true_iff in Hmsg.
  rewrite (dispatch_normal _ _ _ (handleSendMessage_sends w Hmsg)). simpl.
  split; [| reflexivity].
  eexists. split; [reflexivity |].
  eexists. split; reflexivity.
Qed.

(** ** The date of a routine entry *)

Lemma check_next_iter (p : Z -> bool) (n : N) :
  fst (N.iter n (check_next p) (0, true)) = Z.of_N n
  /\ (snd (N.iter n (check_next p) (0, true)) = true ->
      forall z, 0 <= z < Z.of_N n -> p z = true).
Proof.
  induction n as [| k [IHfst IHsnd]] using N.peano_ind.
  - split; [reflexivity | intros _ z Hz; simpl in Hz; lia].
  - rewrite N.iter_succ. unfold check_next at 1 3. rewrite IHfst.
    cbn [fst snd]. split; [lia |].
    intros H z Hz. apply andb_prop in H. destruct H as [Hacc Hp].
    destruct (Z.eq_dec z (Z.of_N k)) as [-> | Hne].
    + exact Hp.
    + apply IHsnd; [exact Hacc | lia].
Qed.

Lemma all_below_spec (n : N) (p : Z -> bool) :
  all_below n p = true -> forall z, 0 <= z < Z.of_N n -> p z = true.
Proof. unfold all_below. apply check_next_iter. Qed.

(** Floor divisions by constants, turned into their defining equations. *)
Ltac floor_arith := Z.div_mod_to_equations; lia.

(** Case analysis on the comparisons the goal branches on, the inner ones
    first. *)
Ltac no_branch_in a :=
  lazymatch a with
  | context [if _ then _ else _] => fail
  | _ => idtac
  end.

Ltac split_comparisons :=
  repeat match goal with
  | |- context [if ?a <? ?b then _ else _] =>
      no_branch_in a; destruct (Z.ltb_spec a b)
  | |- context [if ?a <=? ?b then _ else _] =>
      no_branch_in a; destruct (Z.leb_spec a b)
  | |- context [if ?a =? ?b then _ else _] =>
      no_branch_in a; destruct (Z.eqb_spec a b)
  end.

Lemma day_of_era_range (days : Z) : 0 <= JSDate.day_of_era days < 146097.
Proof. unfold JSDate.day_of_era, JSDate.daysPerEra. floor_arith. Qed.

Lemma day_of_year_range (doe : Z) :
  0 <= doe < 146097 -> 0 <= JSDate.day_of_year doe <= 365.
Proof.
  intros Hdoe. unfold JSDate.day_of_year, JSDate.year_of_era. cbv zeta.
  floor_arith.
Qed.

Lemma month_and_day_range (doy : Z) :
  0 <= doy <= 365 ->
  1 <= JSDate.month_of_year doy <= 12 /\ 1 <= JSDate.day_of_month doy <= 31.
Proof.
  intros Hdoy.
  unfold JSDate.month_of_year, JSDate.day_of_month, JSDate.march_month.
  cbv zeta. split_comparisons; floor_arith.
Qed.

Lemma calendar_day_in_range (t : JSDate.time) :
  1 <= JSDate.MonthFromTime t + 1 <= 12 /\ 1 <= JSDate.DateFromTime t <= 31.
Proof.
  unfold JSDate.MonthFromTime, JSDate.DateFromTime.
  pose proof (day_of_era_range (JSDate.Day t)) as Hdoe.
  pose proof (day_of_year_range _ Hdoe) as Hdoy.
  pose proof (month_and_day_range _ Hdoy). lia.
Qed.

(** *** The calendar arithmetic and the definitions of ECMAScript *)

Lemma DayFromYear_succ (y : Z) :
  ES.DayFromYear (y + 1) - ES.DayFromYear y = ES.DaysInYear y.
Proof.
  unfold ES.DayFromYear, ES.DaysInYear.
  destruct (Z.eqb_spec (y mod 4) 0) as [H4 | H4];
  destruct (Z.eqb_spec (y mod 100) 0) as [H100 | H100];
  destruct (Z.eqb_spec (y mod 400) 0) as [H400 | H400]; cbn [negb];
  floor_arith.
Qed.

Lemma DayFromYear_increasing (y1 y2 : Z) :
  y1 < y2 -> ES.DayFromYear y1 < ES.DayFromYear y2.
Proof. unfold ES.DayFromYear. intros Hlt. floor_arith. Qed.

Ltac unfold_calendar :=
  unfold JSDate.YearFromTime, JSDate.era, JSDate.day_of_era, JSDate.daysPerEra,
    JSDate.month_of_year, JSDate.march_month, JSDate.day_of_year,
    JSDate.year_of_era;
  cbv zeta.

(** [YearFromTime t] is the year whose first day is the last one not
    after [Day t]. *)
Lemma YearFromTime_brackets (t : JSDate.time) :
  ES.DayFromYear (JSDate.YearFromTime t) <= JSDate.Day t
  < ES.DayFromYear (JSDate.YearFromTime t + 1).
Proof.
  unfold ES.DayFromYear. unfold_calendar.
  set (days := JSDate.Day t).
  split_comparisons; floor_arith.
Qed.

(** It is the largest such year, which is how ECMAScript defines it. *)
Lemma YearFromTime_largest (t : JSDate.time) (y : Z) :
  ES.DayFromYear y <= JSDate.Day t -> y <= JSDate.YearFromTime t.
Proof.
  intros Hy. destruct (YearFromTime_brackets t) as [_ Hnext].
  destruct (Z.le_gt_cases y (JSDate.YearFromTime t)) as [Hle | Hgt].
  - exact Hle.
  - assert (Hstep : JSDate.YearFromTime t + 1 <= y) by lia.
    apply Z.le_lteq in Hstep. destruct Hstep as [Hlt | Heq].
    + pose proof (DayFromYear_increasing _ _ Hlt). lia.
    + rewrite <- Heq in Hy. lia.
Qed.

(** The day within the calendar year, from the day of the year that
    starts in March. *)
Lemma day_within_calendar_year (t : JSDate.time) :
  0 <= JSDate.day_of_year (JSDate.day_of_era (JSDate.Day t)) <= 365
  /\ JSDate.Day t - ES.DayFromYear (JSDate.YearFromTime t)
     = day_within_year (JSDate.day_of_year (JSDate.day_of_era (JSDate.Day t)))
         (ES.InLeapYear (JSDate.YearFromTime t))
  /\ (JSDate.day_of_year (JSDate.day_of_era (JSDate.Day t)) = 365 ->
      ES.InLeapYear (JSDate.YearFromTime t) = 1).
Proof.
  unfold day_within_year, ES.InLeapYear. rewrite <- DayFromYear_succ.
  unfold ES.DayFromYear. unfold_calendar.
  set (days := JSDate.Day t).
  split_comparisons; floor_arith.
Qed.

Lemma tables_agree_common : all_below 365 (tables_agree_on 0) = true.
Proof. vm_compute. reflexivity. Qed.

Lemma tables_agree_leap : all_below 366 (tables_agree_on 1) = true.
Proof. vm_compute. reflexivity. Qed.

Lemma InLeapYear_cases (y : Z) : ES.InLeapYear y = 0 \/ ES.InLeapYear y = 1.
Proof. unfold ES.InLeapYear. destruct (_ =? 366); auto. Qed.

(** [MonthFromTime] and [DateFromTime] are the month and the date that
    ECMAScript reads off the day within the year. *)
Lemma MonthFromTime_DateFromTime_tables (t : JSDate.time) :
  JSDate.MonthFromTime t
  = ES.MonthFromDay (JSDate.Day t - ES.DayFromYear (JSDate.YearFromTime t))
      (ES.InLeapYear (JSDate.YearFromTime t))
  /\ JSDate.DateFromTime t
     = ES.DateFromDay (JSDate.Day t - ES.DayFromYear (JSDate.YearFromTime t))
         (ES.InLeapYear (JSDate.YearFromTime t)).
Proof.
  destruct (day_within_calendar_year t) as (Hdoy & -> & Hlast).
  unfold JSDate.MonthFromTime, JSDate.DateFromTime.
  set (doy := JSDate.day_of_year (JSDate.day_of_era (JSDate.Day t))) in *.
  assert (Hagree : tables_agree_on (ES.InLeapYear (JSDate.YearFromTime t)) doy = true).
  { destruct (InLeapYear_cases (JSDate.YearFromTime t)) as [Hleap | Hleap];
      rewrite Hleap.
    - apply (all_below_spec 365 _ tables_agree_common).
      change (Z.of_N 365) with 365.
      destruct (Z.eq_dec doy 365) as [Heq | Hne]; [| lia].
      specialize (Hlast Heq). lia.
    - apply (all_below_spec 366 _ tables_agree_leap).
      change (Z.of_N 366) with 366. lia. }
  unfold tables_agree_on in Hagree. apply andb_prop in Hagree.
  destruct Hagree as [Hmonth Hdate].
  apply Z.eqb_eq in Hmonth. apply Z.eqb_eq in Hdate. now split.
Qed.

Lemma four_digit_year_range (t : JSDate.time) :
  four_digit_year t -> 0 <= JSDate.YearFromTime t <= 9999.
Proof.
  unfold four_digit_year. intros Ht.
  assert (Hday : -719528 <= JSDate.Day t <= 2932896)
    by (unfold JSDate.Day, JSDate.msPerDay; floor_arith).
  destruct (YearFromTime_brackets t) as [Hfirst Hnext].
  split.
  - destruct (Z.le_gt_cases 0 (JSDate.YearFromTime t)) as [Hle | Hgt]; [exact Hle |].
    assert (Hup : JSDate.YearFromTime t + 1 <= 0) by lia.
    apply Z.le_lteq in Hup. destruct Hup as [Hlt | Heq].
    + pose proof (DayFromYear_increasing _ _ Hlt) as Hinc.
      change (ES.DayFromYear 0) with (-719528) in Hinc. lia.
    + rewrite Heq in Hnext. change (ES.DayFromYear 0) with (-719528) in Hnext. lia.
  - destruct (Z.le_gt_cases (JSDate.YearFromTime t) 9999) as [Hle | Hgt]; [exact Hle |].
    assert (Hup : 10000 <= JSDate.YearFromTime t) by lia.
    apply Z.le_lteq in Hup. destruct Hup as [Hlt | Heq].
    + pose proof (DayFromYear_increasing _ _ Hlt) as Hinc.
      change (ES.DayFromYear 10000) with 2932897 in Hinc. lia.
    + rewrite <- Heq in Hfirst.
      change (ES.DayFromYear 10000) with 2932897 in Hfirst. lia.
Qed.

Lemma split_first_piece (sep : N) (piece rest : jsstring) :
  forallb (fun c => negb (c =? sep)%N) piece = true ->
  JS.at_index (JS.split sep (piece ++ sep :: rest)) 0 = piece.
Proof.
  unfold JS.at_index.
  induction piece as [| c piece' IH]; simpl; intros H.
  - now rewrite N.eqb_refl.
  - apply andb_prop in H. destruct H as [Hc Hrest].
    apply negb_true_iff in Hc. rewrite Hc.
    specialize (IH Hrest).
    destruct (JS.split sep (piece' ++ sep :: rest)) as [| first others];
      simpl in *; congruence.
Qed.

Lemma digit_code (n : Z) :
  JSDate.is_digit (Z.to_N (48 + n mod 10)) = true
  /\ JSDate.digit_value (Z.to_N (48 + n mod 10)) = n mod 10
  /\ (Z.to_N (48 + n mod 10) =? 84)%N = false.
Proof.
  pose proof (Z.mod_pos_bound n 10 ltac:(lia)) as Hd.
  unfold JSDate.is_digit, JSDate.digit_value.
  repeat split.
  - apply andb_true_intro. split; apply N.leb_le; lia.
  - lia.
  - apply N.eqb_neq. lia.
Qed.

(** For a year from 0 to 9999 the date sent is YYYY-MM-DD. *)
Lemma today_is_iso_date (now : JSDate.time) :
  0 <= JSDate.YearFromTime now <= 9999 ->
  JSDate.is_iso_date (today now) = true.
Proof.
  intros Hyear.
  destruct (calendar_day_in_range now) as [Hmonth Hdate].
  unfold today, JSDate.toISOString, JSDate.year_string.
  replace ((0 <=? JSDate.YearFromTime now) && (JSDate.YearFromTime now <=? 9999))
    with true by (symmetry; apply andb_true_intro; split; apply Z.leb_le; lia).
  set (y := JSDate.YearFromTime now) in *.
  set (m := JSDate.MonthFromTime now + 1) in *.
  set (d := JSDate.DateFromTime now) in *.
  change (JSDate.pad 4 y ++ js "-" ++ JSDate.pad 2 m ++ js "-"
          ++ JSDate.pad 2 d ++ js "T" ++ JSDate.pad 2 (JSDate.HourFromTime now)
          ++ js ":" ++ JSDate.pad 2 (JSDate.MinFromTime now) ++ js ":"
          ++ JSDate.pad 2 (JSDate.SecFromTime now) ++ js "."
          ++ JSDate.pad 3 (JSDate.msFromTime now) ++ js "Z")
    with ([Z.to_N (48 + (y / 10 / 10 / 10) mod 10);
           Z.to_N (48 + (y / 10 / 10) mod 10);
           Z.to_N (48 + (y / 10) mod 10);
           Z.to_N (48 + y mod 10); 45%N;
           Z.to_N (48 + (m / 10) mod 10); Z.to_N (48 + m mod 10); 45%N;
           Z.to_N (48 + (d / 10) mod 10); Z.to_N (48 + d mod 10)]
          ++ 84%N
             :: (JSDate.pad 2 (JSDate.HourFromTime now)
                 ++ js ":" ++ JSDate.pad 2 (JSDate.MinFromTime now) ++ js ":"
                 ++ JSDate.pad 2 (JSDate.SecFromTime now) ++ js "."
                 ++ JSDate.pad 3 (JSDate.msFromTime now) ++ js "Z")).
  rewrite split_first_piece.
  - unfold JSDate.is_iso_date. cbn [forallb].
    rewrite !(proj1 (digit_code _)).
    rewrite !(proj1 (proj2 (digit_code _))).
    cbn [andb]. rewrite !N.eqb_refl. cbn [andb].
    assert (Hm : 10 * ((m / 10) mod 10) + m mod 10 = m).
    { rewrite (Z.mod_small (m / 10) 10)
        by (split; [apply Z.div_pos; lia | apply Z.div_lt_upper_bound; lia]).
      pose proof (Z.div_mod m 10 ltac:(lia)). lia. }
    assert (Hd : 10 * ((d / 10) mod 10) + d mod 10 = d).
    { rewrite (Z.mod_small (d / 10) 10)
        by (split; [apply Z.div_pos; lia | apply Z.div_lt_upper_bound; lia]).
      pose proof (Z.div_mod d 10 ltac:(lia)). lia. }
    rewrite Hm, Hd.
    repeat (apply andb_true_intro; split); apply Z.leb_le; lia.
  - cbn [forallb].
    rewrite !(proj2 (proj2 (digit_code _))). reflexivity.
Qed.

(** The ten code units of the date, for a year of four digits. *)
Lemma today_digits (now : JSDate.time) :
  four_digit_year now ->
  today now
  = [ Z.to_N (48 + (JSDate.YearFromTime now / 10 / 10 / 10) mod 10);
      Z.to_N (48 + (JSDate.YearFromTime now / 10 / 10) mod 10);
      Z.to_N (48 + (JSDate.YearFromTime now / 10) mod 10);
      Z.to_N (48 + JSDate.YearFromTime now mod 10); 45%N;
      Z.to_N (48 + ((JSDate.MonthFromTime now + 1) / 10) mod 10);
      Z.to_N (48 + (JSDate.MonthFromTime now + 1) mod 10); 45%N;
      Z.to_N (48 + (JSDate.DateFromTime now / 10) mod 10);
      Z.to_N (48 + JSDate.DateFromTime now mod 10) ].
Proof.
  intros Hnow. apply four_digit_year_range in Hnow.
  unfold today, JSDate.toISOString, JSDate.year_string.
  replace ((0 <=? JSDate.YearFromTime now) && (JSDate.YearFromTime now <=? 9999))
    with true by (symmetry; apply andb_true_intro; split; apply Z.leb_le; lia).
  set (y := JSDate.YearFromTime now).
  set (m := JSDate.MonthFromTime now + 1).
  set (d := JSDate.DateFromTime now).
  change (JSDate.pad 4 y ++ js "-" ++ JSDate.pad 2 m ++ js "-"
          ++ JSDate.pad 2 d ++ js "T" ++ JSDate.pad 2 (JSDate.HourFromTime now)
          ++ js ":" ++ JSDate.pad 2 (JSDate.MinFromTime now) ++ js ":"
          ++ JSDate.pad 2 (JSDate.SecFromTime now) ++ js "."
          ++ JSDate.pad 3 (JSDate.msFromTime now) ++ js "Z")
    with ([Z.to_N (48 + (y / 10 / 10 / 10) mod 10);
           Z.to_N (48 + (y / 10 / 10) mod 10);
           Z.to_N (48 + (y / 10) mod 10);
           Z.to_N (48 + y mod 10); 45%N;
           Z.to_N (48 + (m / 10) mod 10); Z.to_N (48 + m mod 10); 45%N;
           Z.to_N (48 + (d / 10) mod 10); Z.to_N (48 + d mod 10)]
          ++ 84%N
             :: (JSDate.pad 2 (JSDate.HourFromTime now)
                 ++ js ":" ++ JSDate.pad 2 (JSDate.MinFromTime now) ++ js ":"
                 ++ JSDate.pad 2 (JSDate.SecFromTime now) ++ js "."
                 ++ JSDate.pad 3 (JSDate.msFromTime now) ++ js "Z")).
  apply split_first_piece. cbn [forallb].
  rewrite !(proj2 (proj2 (digit_code _))). reflexivity.
Qed.

Example today_2023 : today 1700000000123 = js "2023-11-14".
Proof. reflexivity. Qed.

Example today_leap_day : today 1709251199999 = js "2024-02-29".
Proof. reflexivity. Qed.

(** ** The routine flow *)

Lemma handleRoutineSave_posts (now : JSDate.time) (w : World) :
  handleRoutineSave now w =
  (Normal tt,
   {| BACKEND_URL := BACKEND_URL w;
      ui := ui w;
      recognitionRef := recognitionRef w;
      recognition_calls := recognition_calls w;
      toasts := toasts w;
      console := console w;
      requests := requests w
        ++ [mkRequest POST (API w ++ "/routine")
              (Some (routine_body now (routine (ui w))))];
      in_flight := in_flight w ++ [(next_request w, AwaitRoutine)];
      next_request := S (next_request w);
      unhandled := unhandled w |}).
Proof. reflexivity. Qed.

Lemma step_ClickSaveRoutine (now : JSDate.time) (w : World) :
  step w (ClickSaveRoutine now) = dispatch (handleRoutineSave now) w.
Proof. reflexivity. Qed.

(** C4.  The save handler issues one request, a POST to [/routine], and
    leaves the form alone until it settles; resumed, it issues no other
    request, and the form is the empty one when the request was fulfilled
    and the one it found when the request was rejected, in which case the
    toast raised is the error one. *)
Theorem routine_save_posts_once_and_resets_on_success
    (w : World) (now : JSDate.time) :
  fst (handleRoutineSave now w) = Normal tt
  /\ requests (dispatch (handleRoutineSave now) w)
     = requests w
       ++ [mkRequest POST (API w ++ "/routine")
             (Some (routine_body now (routine (ui w))))]
  /\ ui (dispatch (handleRoutineSave now) w) = ui w
  /\ forall (later : World) (settled : Outcome unit),
       fst (handleRoutineSave_resumed settled later) = Normal tt
       /\ requests (dispatch (handleRoutineSave_resumed settled) later)
          = requests later
       /\ routine (ui (dispatch (handleRoutineSave_resumed settled) later))
          = match settled with
            | Fulfilled _ => empty_routine
            | Rejected _ => routine (ui later)
            end
       /\ toasts (dispatch (handleRoutineSave_resumed settled) later)
          = toasts later
            ++ [match settled with
                | Fulfilled _ => mkToast ToastSuccess "Routine saved successfully!"
                | Rejected _ => mkToast ToastError "Failed to save routine."
                end].
Proof.
  rewrite (dispatch_normal _ _ _ (handleRoutineSave_posts now w)).
  repeat split; destruct settled; reflexivity.
Qed.

(** C8, as the code has it.  A click on the save button issues the POST
    whatever the form holds, populated or not, and the body carries the
    four fields as they stand. *)
Theorem routine_save_posts_whatever_the_form_holds
    (w : World) (now : JSDate.time) :
  exists body,
    requests (step w (ClickSaveRoutine now))
    = requests w ++ [mkRequest POST (API w ++ "/routine") (Some body)]
    /\ get_prop "sleep_hours" body = JsString (sleep_hours (routine (ui w)))
    /\ get_prop "water_glasses" body = JsString (water_glasses (routine (ui w)))
    /\ get_prop "exercise_minutes" body
       = JsString (exercise_minutes (routine (ui w)))
    /\ get_prop "mood" body = JsString (mood (routine (ui w))).
Proof.
  exists (routine_body now (routine (ui w))).
  rewrite step_ClickSaveRoutine.
  rewrite (dispatch_normal _ _ _ (handleRoutineSave_posts now w)).
  repeat split.
Qed.

(** C8 as stated fails: with the form as it comes up, nothing populated, a
    click on save issues the POST, all four fields empty strings. *)
Lemma unpopulated_routine_is_posted :
  populated (routine (ui routine_tab_opened)) = false
  /\ requests (step routine_tab_opened (ClickSaveRoutine demo_now))
     = requests routine_tab_opened
       ++ [mkRequest POST "https://backend.example/api/routine"
             (Some (JsObject
                [ ("user_id"%string, JsString (js "default_user"));
                  ("date"%string, JsString (js "2023-11-14"));
                  ("sleep_hours"%string, JsString (js ""));
                  ("water_glasses"%string, JsString (js ""));
                  ("exercise_minutes"%string, JsString (js ""));
                  ("mood"%string, JsString (js "")) ]))].
Proof. split; reflexivity. Qed.

(** ** Case analysis on one step *)

Ltac unfold_handlers :=
  cbv [step on_event dispatch bind read ret update toast console_error
       settle resume with_ui
       handleSendMessage handleSendMessage_resumed handleVoiceInput
       handleRoutineSave handleRoutineSave_resumed
       loadWeather_resumed loadNews_resumed loadChatHistory_resumed
       recognition_onresult recognition_onerror recognition_onend
       recognition_call
       change_sleep_hours change_water_glasses change_exercise_minutes
       change_mood try_catch try_catch_finally await throw
       setMessage setChatHistory setIsLoading setIsListening setWeather
       setNews setRoutine setActiveTab axios_post axios_get axios].

Ltac split_innermost :=
  repeat match goal with
  | |- context [match ?c with _ => _ end] =>
      lazymatch c with
      | context [match _ with _ => _ end] => fail
      | _ => destruct c eqn:?
      end
  end.

#[local] Arguments count_kind : simpl never.
#[local] Arguments js : simpl never.
#[local] Arguments JS.trim : simpl never.
#[local] Arguments jsstring_eqb : simpl never.
#[local] Arguments is_in_flight : simpl never.

(** ** Requests in flight *)

Lemma Awaiting_eqb_eq (a b : Awaiting) : Awaiting_eqb a b = true <-> a = b.
Proof. destruct a, b; simpl; split; intros H; congruence. Qed.

Lemma count_kind_app (a : Awaiting) (l1 l2 : list (nat * Awaiting)) :
  count_kind a (l1 ++ l2) = (count_kind a l1 + count_kind a l2)%nat.
Proof. unfold count_kind. now rewrite filter_app, length_app. Qed.

Lemma filter_other_ids (id : nat) (l : list (nat * Awaiting)) :
  ~ In id (map fst l) ->
  filter (fun p => negb (Nat.eqb (fst p) id)) l = l.
Proof.
  induction l as [| [i k] rest IH]; simpl; intros Hnot.
  - reflexivity.
  - destruct (Nat.eqb_spec i id) as [-> | Hne]; simpl.
    + exfalso. apply Hnot. now left.
    + rewrite IH; [reflexivity | intros Hin; apply Hnot; now right].
Qed.

(** Settling the request [id], on which a handler of kind [a] waits, takes
    one request of that kind out of flight and none of the other kinds. *)
Lemma count_kind_settled (id : nat) (a k : Awaiting) (l : list (nat * Awaiting)) :
  NoDup (map fst l) ->
  existsb (fun p => Nat.eqb (fst p) id && Awaiting_eqb (snd p) a) l = true ->
  (count_kind k (filter (fun p => negb (Nat.eqb (fst p) id)) l)
   + (if Awaiting_eqb a k then 1 else 0))%nat
  = count_kind k l.
Proof.
  induction l as [| [i b] rest IH]; simpl; intros Hnodup Hin.
  - discriminate.
  - inversion Hnodup as [| ? ? Hfresh Hrest]; subst.
    destruct (Nat.eqb_spec i id) as [-> | Hne]; simpl in *.
    + rewrite (filter_other_ids id rest Hfresh).
      destruct (Awaiting_eqb b a) eqn:Hba; simpl in Hin.
      * apply Awaiting_eqb_eq in Hba. subst b.
        unfold count_kind. simpl.
        destruct (Awaiting_eqb a k); simpl; lia.
      * exfalso. clear IH. apply existsb_exists in Hin.
        destruct Hin as ([j c] & Hmem & Htest). simpl in Htest.
        apply andb_prop in Htest. destruct Htest as [Hj _].
        apply Nat.eqb_eq in Hj. subst j.
        apply Hfresh. apply in_map_iff. now exists (id, c).
    + specialize (IH Hrest Hin). unfold count_kind in *. simpl.
      destruct (Awaiting_eqb b k); simpl; lia.
Qed.

Lemma NoDup_filter_ids (id : nat) (l : list (nat * Awaiting)) :
  NoDup (map fst l) ->
  NoDup (map fst (filter (fun p => negb (Nat.eqb (fst p) id)) l)).
Proof.
  induction l as [| [i b] rest IH]; simpl; intros Hnodup.
  - constructor.
  - inversion Hnodup as [| ? ? Hfresh Hrest]; subst.
    destruct (Nat.eqb i id); simpl.
    + now apply IH.
    + constructor; [| now apply IH].
      intros Hin. apply Hfresh.
      apply in_map_iff in Hin. destruct Hin as (p & Hp & Hmem).
      apply filter_In in Hmem. apply in_map_iff. exists p. tauto.
Qed.

Lemma ids_fresh_append (w : World) (a : Awaiting) :
  ids_fresh w ->
  NoDup (map fst (in_flight w ++ [(next_request w, a)]))
  /\ forall p, In p (in_flight w ++ [(next_request w, a)]) ->
               (fst p < S (next_request w))%nat.
Proof.
  intros [Hnodup Hbound]. split.
  - rewrite map_app. simpl. apply NoDup_app.
    + exact Hnodup.
    + constructor; [intros [] | constructor].
    + intros i Hin [Heq | []]. subst i.
      apply in_map_iff in Hin. destruct Hin as (p & Hp & Hmem).
      specialize (Hbound p Hmem). lia.
  - intros p Hin. apply in_app_or in Hin. destruct Hin as [Hin | [<- | []]].
    + specialize (Hbound p Hin). lia.
    + simpl. lia.
Qed.

Lemma ids_fresh_step (w : World) (e : Event) :
  ids_fresh w -> ids_fresh (step w e).
Proof.
  intros Hw.
  destruct e; unfold_handlers; split_innermost; try exact Hw;
    unfold ids_fresh; cbn [in_flight next_request];
    try (apply ids_fresh_append; exact Hw);
    destruct Hw as [Hnodup Hbound];
    (split; [now apply NoDup_filter_ids |
             intros p Hin; apply filter_In in Hin; apply Hbound; tauto]).
Qed.

Lemma count_in_flight_kind a w : count_in_flight a w = count_kind a (in_flight w).
Proof. reflexivity. Qed.

Lemma count_kind_one (a k : Awaiting) (id : nat) :
  count_kind k [(id, a)] = if Awaiting_eqb a k then 1%nat else 0%nat.
Proof. unfold count_kind. simpl. now destruct (Awaiting_eqb a k). Qed.

Lemma chat_guarded_step (w : World) (e : Event) :
  not_enter_key e = true ->
  ids_fresh w -> chat_guarded w -> chat_guarded (step w e).
Proof.
  intros Hkey [Hnodup _] Hw. unfold chat_guarded in *.
  rewrite count_in_flight_kind in *.
  destruct w as [backend [msg history loading listening wth nws rtn tab]
                   ref calls tsts cons reqs flying next unh].
  cbn in Hnodup, Hw.
  destruct e; cbn in Hkey; unfold_handlers; unfold send_disabled;
    cbn; split_innermost; cbn in *; subst;
    try exact Hw; try congruence;
    rewrite ?count_kind_app, ?count_kind_one; cbn.
  all: try match goal with
       | H : is_in_flight ?id ?a _ = true |- _ =>
           pose proof (count_kind_settled id a AwaitChat _ Hnodup H) as Hcount;
           cbn in Hcount
       end.
  all: try lia.
  - apply orb_false_elim in Heqb. destruct Heqb as [_ ->]. lia.
  - destruct loading; lia.
  - destruct loading; lia.
Qed.

Lemma mount_ids_fresh (backend : string) (speech : bool) :
  ids_fresh (mount backend speech).
Proof.
  destruct speech; split; cbn.
  all: try (repeat constructor; cbn; intuition (try discriminate; lia)).
  all: intros p Hin; repeat (destruct Hin as [<- | Hin]; [cbn; lia |]); destruct Hin.
Qed.

Lemma mount_chat_guarded (backend : string) (speech : bool) :
  chat_guarded (mount backend speech).
Proof. destruct speech; reflexivity. Qed.

Lemma run_snoc (w : World) (events : list Event) (e : Event) :
  run w (events ++ [e]) = step (run w events) e.
Proof. unfold run. now rewrite fold_left_app. Qed.

Lemma run_ids_fresh (backend : string) (speech : bool) (events : list Event) :
  ids_fresh (run (mount backend speech) events).
Proof.
  induction events as [| e events IH] using rev_ind.
  - apply mount_ids_fresh.
  - rewrite run_snoc. now apply ids_fresh_step.
Qed.

Lemma run_chat_guarded (backend : string) (speech : bool) (events : list Event) :
  forallb not_enter_key events = true ->
  chat_guarded (run (mount backend speech) events).
Proof.
  induction events as [| e events IH] using rev_ind; intros Hkeys.
  - apply mount_chat_guarded.
  - rewrite forallb_app in Hkeys. apply andb_prop in Hkeys.
    destruct Hkeys as [Hevents He]. cbn in He. rewrite andb_true_r in He.
    rewrite run_snoc. apply chat_guarded_step.
    + exact He.
    + apply run_ids_fresh.
    + now apply IH.
Qed.

(** ** Invariants of every run *)

Lemma step_mood_chosen (w : World) (e : Event) :
  mood_chosen w -> mood_chosen (step w e).
Proof.
  intros Hw.
  destruct w as [backend [msg history loading listening wth nws rtn tab]
                   ref calls tsts cons reqs flying next unh].
  unfold mood_chosen in *. cbn in Hw.
  destruct e; unfold_handlers; unfold send_disabled; cbn;
    split_innermost; cbn; try exact Hw.
  - now exists chosen.
  - now exists SelectMood.
Qed.

Lemma run_mood_chosen (backend : string) (speech : bool) (events : list Event) :
  mood_chosen (run (mount backend speech) events).
Proof.
  induction events as [| e events IH] using rev_ind.
  - exists SelectMood. now destruct speech.
  - rewrite run_snoc. now apply step_mood_chosen.
Qed.

(** No handler lets an exception out. *)
Lemma step_unhandled (w : World) (e : Event) :
  unhandled (step w e) = unhandled w.
Proof.
  destruct e; unfold_handlers; split_innermost; reflexivity.
Qed.

Lemma run_unhandled (backend : string) (speech : bool) (events : list Event) :
  unhandled (run (mount backend speech) events) = [].
Proof.
  induction events as [| e events IH] using rev_ind.
  - now destruct speech.
  - rewrite run_snoc, step_unhandled. exact IH.
Qed.

(** ** Concurrent requests *)

(** C5 as stated fails: the save button is never disabled, so two clicks
    in a row put two routine requests in flight. *)
Lemma two_routine_saves_in_flight :
  count_in_flight AwaitRoutine (run (mount demo_backend true) save_twice) = 2%nat.
Proof. reflexivity. Qed.

(** The Enter key runs the send handler without looking at [isLoading]:
    a second chat request goes out while the first is outstanding. *)
Lemma enter_key_sends_while_loading :
  count_in_flight AwaitChat (run (mount demo_backend true) send_then_enter) = 2%nat.
Proof. reflexivity. Qed.

(** C5, as the code has it.  As long as the Enter key is not used to
    send, at most one chat request is in flight, [isLoading] holds exactly
    while one is, and the send button is disabled then; every click on
    the save button puts one more routine request in flight. *)
Theorem chat_single_flight_by_button
    (backend : string) (speech : bool) (events : list Event) :
  forallb not_enter_key events = true ->
  (count_in_flight AwaitChat (run (mount backend speech) events) <= 1)%nat
  /\ (count_in_flight AwaitChat (run (mount backend speech) events) = 1%nat
      <-> isLoading (ui (run (mount backend speech) events)) = true)
  /\ (isLoading (ui (run (mount backend speech) events)) = true ->
      step (run (mount backend speech) events) ClickSend
      = run (mount backend speech) events)
  /\ forall now,
       count_in_flight AwaitRoutine
         (step (run (mount backend speech) events) (ClickSaveRoutine now))
       = S (count_in_flight AwaitRoutine (run (mount backend speech) events)).
Proof.
  intros Hkeys.
  pose proof (run_chat_guarded backend speech events Hkeys) as Hguard.
  unfold chat_guarded in Hguard.
  set (w := run (mount backend speech) events) in *.
  repeat split.
  - destruct (isLoading (ui w)); lia.
  - destruct (isLoading (ui w)); [reflexivity | lia].
  - intros Hloading. now rewrite Hloading in Hguard.
  - intros Hloading. apply step_ClickSend_disabled.
    unfold send_disabled. rewrite Hloading. apply orb_true_r.
  - intros now. rewrite step_ClickSaveRoutine.
    rewrite (dispatch_normal _ _ _ (handleRoutineSave_posts now w)).
    unfold count_in_flight. cbn [in_flight].
    rewrite count_kind_app, count_kind_one. cbn. lia.
Qed.

(** C5, as the code has it, on [send_by_button]. *)
Lemma chat_single_flight_by_button_witness :
  forallb not_enter_key send_by_button = true
  /\ (count_in_flight AwaitChat (run (mount demo_backend true) send_by_button)
      <= 1)%nat.
Proof.
  split.
  - reflexivity.
  - apply (chat_single_flight_by_button demo_backend true send_by_button).
    reflexivity.
Defined.

(** ** Failures *)

(** C6 as stated fails: the weather request of the mount is rejected, the
    failure is logged, and no toast is raised. *)
Lemma weather_failure_raises_no_toast :
  toasts (run (mount demo_backend true) weather_fails) = []
  /\ console (run (mount demo_backend true) weather_fails)
     = [mkLogEntry "Weather loading error:" (js "Network Error")].
Proof. split; reflexivity. Qed.

(** C6, as the code has it.  Whatever request is rejected, the handler
    suspended on it catches the rejection and completes normally, logs it
    under its label, and leaves no uncaught error; the chat and routine
    handlers raise their error toast, the three loaders raise none. *)
Theorem failures_are_caught_and_logged
    (a : Awaiting) (error : Error) (w : World) :
  fst (resume (rejection a error) w) = Normal tt
  /\ console (dispatch (resume (rejection a error)) w)
     = console w ++ [mkLogEntry (failure_label a) error]
  /\ toasts (dispatch (resume (rejection a error)) w)
     = toasts w ++ failure_toasts a
  /\ unhandled (dispatch (resume (rejection a error)) w) = unhandled w
  /\ forall id, unhandled (step w (Settled id (rejection a error))) = unhandled w.
Proof.
  repeat split.
  - destruct a; reflexivity.
  - destruct a; reflexivity.
  - destruct a; cbn; rewrite ?app_nil_r; reflexivity.
  - destruct a; reflexivity.
  - intros id. apply step_unhandled.
Qed.

(** The hook state after the three loaders have failed is the initial
    one. *)
Lemma all_loaders_fail (backend : string) (speech : bool) (e0 e1 e2 : Error) :
  ui (run (mount backend speech)
        [ Settled 2 (ChatHistoryResponse (Rejected e2));
          Settled 0 (WeatherResponse (Rejected e0));
          Settled 1 (NewsResponse (Rejected e1)) ])
  = initial_state.
Proof. destruct speech; reflexivity. Qed.

(** An event other than a fulfilled response leaves the slice the
    response would write as it is: [weather] and [news] are written by
    their loader only, [chatHistory] by its loader and by the send
    handler. *)
Lemma step_weather_kept (w : World) (e : Event) :
  fulfils e AwaitWeather = false -> weather (ui (step w e)) = weather (ui w).
Proof.
  intros He.
  destruct e; cbn in He; unfold_handlers; unfold send_disabled;
    split_innermost; try reflexivity; discriminate.
Qed.

Lemma step_news_kept (w : World) (e : Event) :
  fulfils e AwaitNews = false -> news (ui (step w e)) = news (ui w).
Proof.
  intros He.
  destruct e; cbn in He; unfold_handlers; unfold send_disabled;
    split_innermost; try reflexivity; discriminate.
Qed.

Lemma step_chatHistory_kept (w : World) (e : Event) :
  fulfils e AwaitChatHistory || fulfils e AwaitChat = false ->
  chatHistory (ui (step w e)) = chatHistory (ui w).
Proof.
  intros He. apply orb_false_elim in He. destruct He as [Hloaded Hsent].
  destruct e; cbn in Hloaded, Hsent; unfold_handlers; unfold send_disabled;
    split_innermost; try reflexivity; try discriminate; cbn; congruence.
Qed.

(** A slice that every event of a run keeps is the same after the run. *)
Lemma run_keeps {A} (slice : World -> A) (writes : Event -> bool)
    (Hstep : forall w e, writes e = false -> slice (step w e) = slice w)
    (w : World) (events : list Event) :
  forallb (fun e => negb (writes e)) events = true ->
  slice (run w events) = slice w.
Proof.
  induction events as [| e events IH] using rev_ind; intros Hnone.
  - reflexivity.
  - rewrite forallb_app in Hnone. apply andb_prop in Hnone.
    destruct Hnone as [Hevents He]. cbn in He. rewrite andb_true_r in He.
    apply negb_true_iff in He.
    rewrite run_snoc, Hstep by exact He. now apply IH.
Qed.

(** From the mount on, [weather] stays [null], [news] and [chatHistory]
    stay empty, for as long as no response that writes them is
    fulfilled. *)
Lemma weather_empty_until_fulfilled
    (backend : string) (speech : bool) (events : list Event) :
  forallb (fun e => negb (fulfils e AwaitWeather)) events = true ->
  weather (ui (run (mount backend speech) events)) = None.
Proof.
  intros Hnone.
  rewrite (run_keeps (fun w => weather (ui w)) _ step_weather_kept _ _ Hnone).
  now destruct speech.
Qed.

Lemma news_empty_until_fulfilled
    (backend : string) (speech : bool) (events : list Event) :
  forallb (fun e => negb (fulfils e AwaitNews)) events = true ->
  news (ui (run (mount backend speech) events)) = [].
Proof.
  intros Hnone.
  rewrite (run_keeps (fun w => news (ui w)) _ step_news_kept _ _ Hnone).
  now destruct speech.
Qed.

Lemma chatHistory_empty_until_fulfilled
    (backend : string) (speech : bool) (events : list Event) :
  forallb (fun e => negb (fulfils e AwaitChatHistory || fulfils e AwaitChat))
    events = true ->
  chatHistory (ui (run (mount backend speech) events)) = [].
Proof.
  intros Hnone.
  rewrite (run_keeps (fun w => chatHistory (ui w)) _ step_chatHistory_kept
             _ _ Hnone).
  now destruct speech.
Qed.

(** ** The slice of a loader whose request fails *)

Lemma is_in_flight_counted (id : nat) (a : Awaiting) (w : World) :
  is_in_flight id a w = true -> (1 <= count_in_flight a w)%nat.
Proof.
  unfold is_in_flight, count_in_flight, count_kind.
  induction (in_flight w) as [| [i b] rest IH]; cbn; intros H.
  - discriminate.
  - apply orb_prop in H. destruct H as [H | H].
    + apply andb_prop in H. destruct H as [_ Hkind].
      rewrite Hkind. cbn. lia.
    + specialize (IH H). destruct (Awaiting_eqb b a); cbn; lia.
Qed.

Lemma count_kind_filter_le (id : nat) (a : Awaiting) (l : list (nat * Awaiting)) :
  (count_kind a (filter (fun p => negb (Nat.eqb (fst p) id)) l) <= count_kind a l)%nat.
Proof.
  unfold count_kind. induction l as [| [i b] rest IH]; cbn.
  - lia.
  - destruct (Nat.eqb i id); cbn; destruct (Awaiting_eqb b a); cbn; lia.
Qed.

(** No step puts a loader's request in flight. *)
Lemma step_loader_count (a : Awaiting) (w : World) (e : Event) :
  is_loader a = true ->
  (count_in_flight a (step w e) <= count_in_flight a w)%nat.
Proof.
  intros Ha. unfold count_in_flight.
  destruct w as [backend [msg history loading listening wth nws rtn tab]
                   ref calls tsts cons reqs flying next unh].
  destruct e; unfold_handlers; unfold send_disabled; cbn;
    split_innermost; cbn;
    rewrite ?count_kind_app, ?count_kind_one;
    try apply count_kind_filter_le; try lia;
    destruct a; try discriminate; cbn; lia.
Qed.

(** A step keeps the slice of a loader at its initial value, unless it
    is the fulfilled response to a request of that loader in flight, or
    another response that writes the slice. *)
Lemma step_slice_initial (a : Awaiting) (w : World) (e : Event) :
  writes_slice_of a e = false ->
  slice_initial a (ui w) ->
  slice_initial a (ui (step w e))
  \/ exists id r, e = Settled id r /\ awaited_by r = a
                  /\ is_in_flight id a w = true.
Proof.
  intros Hother Hinitial.
  destruct w as [backend [msg history loading listening wth nws rtn tab]
                   ref calls tsts cons reqs flying next unh].
  destruct a; cbn in Hinitial, Hother |- *; try (left; exact I).
  all: destruct e; cbn in Hother; unfold_handlers; unfold send_disabled; cbn;
    split_innermost; cbn; try (left; exact Hinitial); try discriminate.
  all: right; do 2 eexists; (split; [reflexivity |]); split;
    [reflexivity | assumption].
Qed.

(** Settling the request of a handler takes one of its kind out of
    flight. *)
Lemma step_settles_one (w : World) (id : nat) (r : Response) :
  ids_fresh w ->
  is_in_flight id (awaited_by r) w = true ->
  (count_in_flight (awaited_by r) (step w (Settled id r)) + 1
   = count_in_flight (awaited_by r) w)%nat.
Proof.
  intros [Hnodup _] Hflying.
  pose proof (count_kind_settled id (awaited_by r) (awaited_by r) _ Hnodup Hflying)
    as Hcount.
  replace (Awaiting_eqb (awaited_by r) (awaited_by r)) with true in Hcount
    by (now destruct (awaited_by r)).
  rewrite (step_Settled_in_flight w id r Hflying).
  unfold count_in_flight.
  replace (in_flight (dispatch (settle id;; resume r) w))
    with (filter (fun p => negb (Nat.eqb (fst p) id)) (in_flight w));
    [exact Hcount |].
  destruct r as [[|] | [|] | [|] | [|] | [|]]; reflexivity.
Qed.

Lemma step_loader_waiting (a : Awaiting) (w : World) (e : Event) :
  is_loader a = true ->
  writes_slice_of a e = false ->
  loader_waiting a w -> loader_waiting a (step w e).
Proof.
  intros Ha Hother (Hfresh & Hone & Hwaiting).
  pose proof (step_loader_count a w e Ha) as Hcount.
  split; [now apply ids_fresh_step |]. split; [lia |].
  intros Hstill.
  destruct (step_slice_initial a w e Hother (Hwaiting ltac:(lia)))
    as [Hkept | (id & r & -> & <- & Hflying)].
  - exact Hkept.
  - pose proof (step_settles_one w id r Hfresh Hflying). lia.
Qed.

Lemma mount_loader_waiting (a : Awaiting) (backend : string) (speech : bool) :
  is_loader a = true -> loader_waiting a (mount backend speech).
Proof.
  intros Ha. split; [apply mount_ids_fresh |].
  destruct a; try discriminate; destruct speech; split; cbn;
    try lia; reflexivity.
Qed.

Lemma run_loader_waiting
    (a : Awaiting) (backend : string) (speech : bool) (events : list Event) :
  is_loader a = true ->
  forallb (fun e => negb (writes_slice_of a e)) events = true ->
  loader_waiting a (run (mount backend speech) events).
Proof.
  intros Ha.
  induction events as [| e events IH] using rev_ind; intros Hnone.
  - now apply mount_loader_waiting.
  - rewrite forallb_app in Hnone. apply andb_prop in Hnone.
    destruct Hnone as [Hevents He]. cbn in He. rewrite andb_true_r in He.
    apply negb_true_iff in He.
    rewrite run_snoc. apply step_loader_waiting; auto.
Qed.

(** Once no request of a loader is in flight, its slice stays at its
    initial value if it is there. *)
Lemma run_loader_settled (a : Awaiting) (w : World) (events : list Event) :
  is_loader a = true ->
  forallb (fun e => negb (writes_slice_of a e)) events = true ->
  count_in_flight a w = 0%nat ->
  slice_initial a (ui w) ->
  count_in_flight a (run w events) = 0%nat
  /\ slice_initial a (ui (run w events)).
Proof.
  intros Ha Hnone Hcount Hinitial.
  induction events as [| e events IH] using rev_ind.
  - now split.
  - rewrite forallb_app in Hnone. apply andb_prop in Hnone.
    destruct Hnone as [Hevents He]. cbn in He. rewrite andb_true_r in He.
    apply negb_true_iff in He.
    destruct (IH Hevents) as [Hzero Hkept].
    rewrite run_snoc.
    pose proof (step_loader_count a (run w events) e Ha) as Hle.
    split; [lia |].
    destruct (step_slice_initial a (run w events) e He Hkept)
      as [Hstill | (id & r & _ & _ & Hflying)].
    + exact Hstill.
    + apply is_in_flight_counted in Hflying. lia.
Qed.

(** The slice of a loader whose request is rejected is at its initial
    value after any run in which no other response writes it. *)
Lemma rejected_loader_slice
    (a : Awaiting) (backend : string) (speech : bool)
    (before after : list Event) (id : nat) (error : Error) :
  is_loader a = true ->
  forallb (fun e => negb (writes_slice_of a e)) (before ++ after) = true ->
  is_in_flight id a (run (mount backend speech) before) = true ->
  slice_initial a
    (ui (run (mount backend speech)
           (before ++ Settled id (rejection a error) :: after))).
Proof.
  intros Ha Hnone Hflying.
  rewrite forallb_app in Hnone. apply andb_prop in Hnone.
  destruct Hnone as [Hbefore Hafter].
  destruct (run_loader_waiting a backend speech before Ha Hbefore)
    as (Hfresh & Hone & Hwaiting).
  pose proof (is_in_flight_counted id a _ Hflying) as Hsome.
  set (w := run (mount backend speech) before) in *.
  assert (Hkind : awaited_by (rejection a error) = a) by (now destruct a).
  assert (Hflying' : is_in_flight id (awaited_by (rejection a error)) w = true)
    by (now rewrite Hkind).
  pose proof (step_settles_one w id (rejection a error) Hfresh Hflying') as Hsettled.
  rewrite Hkind in Hsettled.
  assert (Hrejected : writes_slice_of a (Settled id (rejection a error)) = false)
    by (now destruct a).
  assert (Hkept : slice_initial a (ui (step w (Settled id (rejection a error))))).
  { destruct (step_slice_initial a w _ Hrejected (Hwaiting Hsome))
      as [Hkept | (id' & r & Heq & Hr & Hin)]; [exact Hkept |].
    rewrite (step_Settled_in_flight w id _ Hflying').
    destruct a; try discriminate; apply (Hwaiting Hsome). }
  change (before ++ Settled id (rejection a error) :: after)
    with (before ++ [Settled id (rejection a error)] ++ after).
  rewrite app_assoc. unfold run. rewrite fold_left_app.
  fold (run (mount backend speech) (before ++ [Settled id (rejection a error)])).
  rewrite run_snoc. fold w.
  apply (run_loader_settled a _ after Ha Hafter); [lia | exact Hkept].
Qed.

Lemma no_other_writer (a : Awaiting) (events : list Event) :
  a <> AwaitChatHistory ->
  forallb (fun e => negb (writes_slice_of a e)) events = true.
Proof.
  intros Ha. apply forallb_forall. intros e _.
  destruct a; try reflexivity. contradiction.
Qed.

(** C7 as stated fails for the chat history: an exchange is answered, the
    chat history request then fails, and [chatHistory] holds the exchange,
    not its initial empty value. *)
Lemma answered_chat_survives_history_failure :
  chatHistory (ui (run (mount demo_backend true) history_fails_after_answer))
  = [mkChatEntry (js "breakfast?") (js "Poha.")]
  /\ console (run (mount demo_backend true) history_fails_after_answer)
     = [mkLogEntry "Chat history loading error:" (js "Network Error")].
Proof. split; reflexivity. Qed.

(** C7, as the code has it.  When the weather, the news or the chat
    history request is rejected, the loader completes normally: it writes
    no hook state and raises no toast, the console gets the one entry,
    and no uncaught error is left.  After a rejected weather or news
    request, [weather] is [null] and [news] is the empty array for the
    rest of the run.  A rejected chat history request leaves
    [chatHistory] as it finds it, which is the empty array for the rest
    of the run unless a chat response is fulfilled. *)
Theorem failed_loader_leaves_slice
    (backend : string) (speech : bool) (before after : list Event)
    (id : nat) (error : Error) :
  (forall w : World,
     (fst (loadWeather_resumed (Rejected error) w) = Normal tt
      /\ ui (dispatch (loadWeather_resumed (Rejected error)) w) = ui w
      /\ toasts (dispatch (loadWeather_resumed (Rejected error)) w) = toasts w
      /\ console (dispatch (loadWeather_resumed (Rejected error)) w)
         = console w ++ [mkLogEntry "Weather loading error:" error])
     /\ (fst (loadNews_resumed (Rejected error) w) = Normal tt
         /\ ui (dispatch (loadNews_resumed (Rejected error)) w) = ui w
         /\ toasts (dispatch (loadNews_resumed (Rejected error)) w) = toasts w
         /\ console (dispatch (loadNews_resumed (Rejected error)) w)
            = console w ++ [mkLogEntry "News loading error:" error])
     /\ (fst (loadChatHistory_resumed (Rejected error) w) = Normal tt
         /\ ui (dispatch (loadChatHistory_resumed (Rejected error)) w) = ui w
         /\ toasts (dispatch (loadChatHistory_resumed (Rejected error)) w)
            = toasts w
         /\ console (dispatch (loadChatHistory_resumed (Rejected error)) w)
            = console w ++ [mkLogEntry "Chat history loading error:" error]))
  /\ (forall r : Response,
        unhandled (run (mount backend speech) (before ++ Settled id r :: after))
        = [])
  /\ (is_in_flight id AwaitWeather (run (mount backend speech) before) = true ->
      weather
        (ui (run (mount backend speech)
               (before ++ Settled id (WeatherResponse (Rejected error)) :: after)))
      = None)
  /\ (is_in_flight id AwaitNews (run (mount backend speech) before) = true ->
      news
        (ui (run (mount backend speech)
               (before ++ Settled id (NewsResponse (Rejected error)) :: after)))
      = [])
  /\ (is_in_flight id AwaitChatHistory (run (mount backend speech) before) = true ->
      chatHistory
        (ui (step (run (mount backend speech) before)
               (Settled id (ChatHistoryResponse (Rejected error)))))
      = chatHistory (ui (run (mount backend speech) before))
      /\ (forallb (fun e => negb (fulfils e AwaitChat)) (before ++ after) = true ->
          chatHistory
            (ui (run (mount backend speech)
                   (before
                    ++ Settled id (ChatHistoryResponse (Rejected error)) :: after)))
          = [])).
Proof.
  split; [intros w; repeat split |].
  split; [intros r; apply run_unhandled |].
  split; [| split].
  - intros Hflying.
    apply (rejected_loader_slice AwaitWeather backend speech before after id error
             eq_refl); [| exact Hflying].
    apply no_other_writer. discriminate.
  - intros Hflying.
    apply (rejected_loader_slice AwaitNews backend speech before after id error
             eq_refl); [| exact Hflying].
    apply no_other_writer. discriminate.
  - intros Hflying. split.
    + rewrite (step_Settled_in_flight _ id
                 (ChatHistoryResponse (Rejected error)) Hflying).
      reflexivity.
    + intros Hnone.
      exact (rejected_loader_slice AwaitChatHistory backend speech before after
               id error eq_refl Hnone Hflying).
Qed.

(** C7, as the code has it, on a message sent before the chat history
    request fails and the tab changed after. *)
Lemma failed_loader_leaves_slice_witness :
  is_in_flight 2 AwaitChatHistory
    (run (mount demo_backend true) [ChangeMessage (js "lunch?"); ClickSend])
  = true
  /\ forallb (fun e => negb (fulfils e AwaitChat))
       ([ChangeMessage (js "lunch?"); ClickSend] ++ [SelectTab NewsTab])
     = true
  /\ chatHistory
       (ui (run (mount demo_backend true)
              ([ChangeMessage (js "lunch?"); ClickSend]
               ++ Settled 2 (ChatHistoryResponse (Rejected (js "Network Error")))
                  :: [SelectTab NewsTab])))
     = [].
Proof.
  split; [reflexivity |]. split; [reflexivity |].
  exact (proj2 (proj2 (proj2 (proj2 (proj2
           (failed_loader_leaves_slice demo_backend true
              [ChangeMessage (js "lunch?"); ClickSend] [SelectTab NewsTab]
              2 (js "Network Error"))))) eq_refl) eq_refl).
Defined.

(** ** A chat request that fails *)

(** C2 as stated fails: the chat history arrives between the send and
    its rejection, and [chatHistory] after the handler has completed is
    not what it was when the handler started. *)
Lemma history_loaded_during_failed_send :
  chatHistory
    (ui (run (mount demo_backend true) [ChangeMessage (js "lunch?")]))
  = []
  /\ chatHistory (ui (run (mount demo_backend true) history_lands_during_send))
     = [mkChatEntry (js "breakfast?") (js "Poha.")]
  /\ toasts (run (mount demo_backend true) history_lands_during_send)
     = [mkToast ToastError "Failed to get recommendation. Please try again."].
Proof. repeat split. Qed.

(** C2, as the code has it.  The send handler does not write
    [chatHistory] before its request settles nor when the request is
    rejected, and the rejection raises the error toast: after a send whose
    request fails, [chatHistory] is what the send found, provided that no
    chat history response and no other chat response is fulfilled in
    between. *)
Theorem failed_chat_keeps_history_unless_overwritten
    (w : World) (between : list Event) (error : Error) :
  JS.trim (message (ui w)) <> [] ->
  forallb (fun e => negb (fulfils e AwaitChatHistory || fulfils e AwaitChat))
    between = true ->
  is_in_flight (next_request w) AwaitChat
    (run (dispatch handleSendMessage w) between) = true ->
  chatHistory
    (ui (run (dispatch handleSendMessage w)
           (between ++ [Settled (next_request w) (ChatResponse (Rejected error))])))
  = chatHistory (ui w)
  /\ toasts
       (run (dispatch handleSendMessage w)
          (between ++ [Settled (next_request w) (ChatResponse (Rejected error))]))
     = toasts (run (dispatch handleSendMessage w) between)
       ++ [mkToast ToastError "Failed to get recommendation. Please try again."]
  /\ console
       (run (dispatch handleSendMessage w)
          (between ++ [Settled (next_request w) (ChatResponse (Rejected error))]))
     = console (run (dispatch handleSendMessage w) between)
       ++ [mkLogEntry "Chat error:" error]
  /\ (forall later : World,
        fst (handleSendMessage_resumed (Rejected error) later) = Normal tt
        /\ chatHistory
             (ui (dispatch (handleSendMessage_resumed (Rejected error)) later))
           = chatHistory (ui later)).
Proof.
  intros Hmsg Hnone Hflying. apply truthy_true_iff in Hmsg.
  split; [| split; [| split]].
  - rewrite (run_keeps (fun w => chatHistory (ui w)) _ step_chatHistory_kept).
    + now rewrite (dispatch_normal _ _ _ (handleSendMessage_sends w Hmsg)).
    + rewrite forallb_app, Hnone. reflexivity.
  - rewrite run_snoc.
    rewrite (step_Settled_in_flight _ _ (ChatResponse (Rejected error)) Hflying).
    reflexivity.
  - rewrite run_snoc.
    rewrite (step_Settled_in_flight _ _ (ChatResponse (Rejected error)) Hflying).
    reflexivity.
  - intros later. split; reflexivity.
Qed.

(** C2, as the code has it, at [typed_hello], the news failing in
    between. *)
Lemma failed_chat_keeps_history_unless_overwritten_witness :
  JS.trim (message (ui typed_hello)) <> []
  /\ forallb (fun e => negb (fulfils e AwaitChatHistory || fulfils e AwaitChat))
       [Settled 1 (NewsResponse (Rejected (js "503")))] = true
  /\ is_in_flight (next_request typed_hello) AwaitChat
       (run (dispatch handleSendMessage typed_hello)
          [Settled 1 (NewsResponse (Rejected (js "503")))]) = true
  /\ chatHistory
       (ui (run (dispatch handleSendMessage typed_hello)
              ([Settled 1 (NewsResponse (Rejected (js "503")))]
               ++ [Settled (next_request typed_hello)
                     (ChatResponse (Rejected (js "Network Error")))])))
     = chatHistory (ui typed_hello).
Proof.
  assert (Hmsg : JS.trim (message (ui typed_hello)) <> [])
    by (vm_compute; discriminate).
  split; [exact Hmsg |]. split; [reflexivity |]. split; [reflexivity |].
  exact (proj1 (failed_chat_keeps_history_unless_overwritten typed_hello
                  [Settled 1 (NewsResponse (Rejected (js "503")))]
                  (js "Network Error") Hmsg eq_refl eq_refl)).
Defined.

(** ** The body of a routine entry *)

(** C9 as stated fails: with the form filled in, the three figures go out
    as the strings the inputs hold, not as numbers. *)
Lemma routine_figures_are_sent_as_strings :
  requests (step routine_filled (ClickSaveRoutine demo_now))
  = requests routine_filled
    ++ [mkRequest POST "https://backend.example/api/routine"
          (Some (JsObject
             [ ("user_id"%string, JsString (js "default_user"));
               ("date"%string, JsString (js "2023-11-14"));
               ("sleep_hours"%string, JsString (js "7.5"));
               ("water_glasses"%string, JsString (js "8"));
               ("exercise_minutes"%string, JsString (js "30"));
               ("mood"%string, JsString (js "good")) ]))]
  /\ typeof (get_prop "sleep_hours"
               (routine_body demo_now (routine (ui routine_filled))))
     <> TNumber
  /\ typeof (get_prop "water_glasses"
               (routine_body demo_now (routine (ui routine_filled))))
     <> TNumber
  /\ typeof (get_prop "exercise_minutes"
               (routine_body demo_now (routine (ui routine_filled))))
     <> TNumber.
Proof. repeat split; cbn; discriminate. Qed.

(** C9, as the code has it.  In every world the component reaches, a save
    at a time of the years 0 to 9999 posts a body of six properties:
    [user_id]; the date, which is the UTC calendar date of that time, the
    four digits of its year, the two of its month and the two of its day
    of the month as ECMAScript defines them, joined by hyphens; the three
    figures as the strings the form holds; and as mood the value of one
    of the five options of the select, the empty one included. *)
Theorem routine_body_shape
    (backend : string) (speech : bool) (events : list Event)
    (now : JSDate.time) :
  four_digit_year now ->
  exists body date chosen,
    requests (step (run (mount backend speech) events) (ClickSaveRoutine now))
    = requests (run (mount backend speech) events)
      ++ [mkRequest POST (API (run (mount backend speech) events) ++ "/routine")
            (Some body)]
    /\ keys_of body
       = [ "user_id"; "date"; "sleep_hours"; "water_glasses";
           "exercise_minutes"; "mood" ]%string
    /\ get_prop "user_id" body = JsString (js "default_user")
    /\ get_prop "date" body = JsString date
    /\ date
       = JSDate.pad 4 (JSDate.YearFromTime now) ++ js "-"
         ++ JSDate.pad 2 (JSDate.MonthFromTime now + 1) ++ js "-"
         ++ JSDate.pad 2 (JSDate.DateFromTime now)
    /\ (ES.DayFromYear (JSDate.YearFromTime now) <= JSDate.Day now
        < ES.DayFromYear (JSDate.YearFromTime now + 1))
    /\ JSDate.MonthFromTime now
       = ES.MonthFromDay
           (JSDate.Day now - ES.DayFromYear (JSDate.YearFromTime now))
           (ES.InLeapYear (JSDate.YearFromTime now))
    /\ JSDate.DateFromTime now
       = ES.DateFromDay
           (JSDate.Day now - ES.DayFromYear (JSDate.YearFromTime now))
           (ES.InLeapYear (JSDate.YearFromTime now))
    /\ JSDate.is_iso_date date = true
    /\ get_prop "sleep_hours" body
       = JsString (sleep_hours (routine (ui (run (mount backend speech) events))))
    /\ get_prop "water_glasses" body
       = JsString (water_glasses (routine (ui (run (mount backend speech) events))))
    /\ get_prop "exercise_minutes" body
       = JsString
           (exercise_minutes (routine (ui (run (mount backend speech) events))))
    /\ get_prop "mood" body = JsString (option_value chosen).
Proof.
  intros Hnow.
  set (w := run (mount backend speech) events).
  destruct (run_mood_chosen backend speech events) as [chosen Hmood].
  fold w in Hmood.
  exists (routine_body now (routine (ui w))), (today now), chosen.
  rewrite step_ClickSaveRoutine.
  rewrite (dispatch_normal _ _ _ (handleRoutineSave_posts now w)).
  destruct (MonthFromTime_DateFromTime_tables now) as [Hmonth Hdate].
  pose proof (YearFromTime_brackets now) as Hyear.
  repeat split; try tauto.
  - apply today_digits. exact Hnow.
  - apply today_is_iso_date. now apply four_digit_year_range.
  - cbn. now rewrite Hmood.
Qed.

(** C9, as the code has it, on [fill_routine] at [demo_now]. *)
Lemma routine_body_shape_witness :
  four_digit_year demo_now
  /\ exists body,
       requests (step (run (mount demo_backend true) fill_routine)
                   (ClickSaveRoutine demo_now))
       = requests (run (mount demo_backend true) fill_routine)
         ++ [mkRequest POST
               (API (run (mount demo_backend true) fill_routine) ++ "/routine")
               (Some body)]
       /\ get_prop "date" body = JsString (js "2023-11-14").
Proof.
  assert (Hnow : four_digit_year demo_now) by (unfold four_digit_year, demo_now; lia).
  split; [exact Hnow |].
  destruct (routine_body_shape demo_backend true fill_routine demo_now Hnow)
    as (body & date & chosen & Hreq & _ & _ & Hdate & Hdigits & _).
  exists body. split; [exact Hreq |].
  rewrite Hdate, Hdigits. reflexivity.
Defined.

(** ** Witnesses of the chat flow *)

(** C1 at [typed_hello]. *)
Lemma send_posts_once_and_prepends_witness :
  JS.trim (message (ui typed_hello)) <> []
  /\ requests (dispatch handleSendMessage typed_hello)
     = requests typed_hello
       ++ [mkRequest POST (API typed_hello ++ "/chat")
             (Some (chat_body (message (ui typed_hello))))].
Proof.
  assert (Hmsg : JS.trim (message (ui typed_hello)) <> [])
    by (vm_compute; discriminate).
  split.
  - exact Hmsg.
  - exact (proj1 (proj2 (send_posts_once_and_prepends typed_hello Hmsg))).
Defined.

(** C3 at [typed_blank]. *)
Lemma blank_message_sends_nothing_witness :
  forallb JS.is_trimmed (message (ui typed_blank)) = true
  /\ step typed_blank (KeyPress (js "Enter")) = typed_blank.
Proof.
  assert (Hblank : forallb JS.is_trimmed (message (ui typed_blank)) = true)
    by reflexivity.
  split.
  - exact Hblank.
  - exact (proj2 (proj2 (blank_message_sends_nothing typed_blank Hblank))).
Defined.

(** C10 at [typed_hello]. *)
Lemma chat_body_carries_raw_message_witness :
  JS.trim (message (ui typed_hello)) <> []
  /\ message (ui (dispatch handleSendMessage typed_hello)) = js "".
Proof.
  assert (Hmsg : JS.trim (message (ui typed_hello)) <> [])
    by (vm_compute; discriminate).
  split.
  - exact Hmsg.
  - exact (proj2 (chat_body_carries_raw_message typed_hello Hmsg)).
Defined.

(** The message typed with spaces around it goes out with them. *)
Example hello_is_sent_untrimmed :
  requests (step typed_hello ClickSend)
  = requests typed_hello
    ++ [mkRequest POST "https://backend.example/api/chat"
          (Some (JsObject
             [ ("message"%string, JsString (js "  hello  "));
               ("user_id"%string, JsString (js "default_user"));
               ("location"%string,
                JsObject [ ("lat"%string, JsNumber 28.6139%Q);
                           ("lon"%string, JsNumber 77.2090%Q) ]) ]))]
  /\ JS.trim (js "  hello  ") = js "hello".
Proof. split; reflexivity. Qed.

(** A whole exchange: the message is typed and sent, the response comes
    back, and the exchange is on display; a second exchange is displayed
    below the first. *)
Example chat_round_trip :
  chatHistory (ui (run (mount demo_backend true) two_exchanges))
  = [ mkChatEntry (js "and for lunch?") (js "Dal and rice.");
      mkChatEntry (js "breakfast?") (js "Poha.") ]
  /\ displayed_history (ui (run (mount demo_backend true) two_exchanges))
     = [ mkChatEntry (js "breakfast?") (js "Poha.");
         mkChatEntry (js "and for lunch?") (js "Dal and rice.") ]
  /\ map req_url (requests (run (mount demo_backend true) two_exchanges))
     = [ "https://backend.example/api/weather";
         "https://backend.example/api/news";
         "https://backend.example/api/chat/history/default_user";
         "https://backend.example/api/chat";
         "https://backend.example/api/chat" ]%string
  /\ in_flight (run (mount demo_backend true) two_exchanges)
     = [ (0%nat, AwaitWeather); (1%nat, AwaitNews); (2%nat, AwaitChatHistory) ].
Proof. repeat split. Qed.

(** A failed save keeps the form, a successful one clears it. *)
Example routine_save_outcomes :
  routine (ui (run routine_filled
                 [ ClickSaveRoutine demo_now;
                   Settled 3 (RoutineResponse (Rejected (js "Network Error"))) ]))
  = routine (ui routine_filled)
  /\ routine (ui (run routine_filled
                    [ ClickSaveRoutine demo_now;
                      Settled 3 (RoutineResponse (Fulfilled tt)) ]))
     = empty_routine.
Proof. split; reflexivity. Qed.

(* ================================================================== *)
(** * Further properties *)

From Stdlib Require Import Permutation.

(** ** The weather icon *)

Lemma starts_with_iff (needle s : jsstring) :
  starts_with needle s = true <-> exists after, s = needle ++ after.
Proof.
  revert s. induction needle as [| x needle' IH]; intros s.
  - split; [intros _; now exists s | reflexivity].
  - destruct s as [| c s']; simpl.
    + split; [discriminate | intros [after H]; discriminate].
    + rewrite andb_true_iff, N.eqb_eq, IH. split.
      * intros [-> [after ->]]. now exists after.
      * intros [after H]. inversion H. split; [reflexivity | now exists after].
Qed.

Lemma includes_iff (needle s : jsstring) :
  includes needle s = true <-> occurs_in needle s.
Proof.
  unfold occurs_in. induction s as [| c s' IH].
  - simpl. rewrite orb_false_r, starts_with_iff. split.
    + intros [after H]. now exists [], after.
    + intros (before & after & H).
      destruct before as [| b before']; [now exists after |].
      discriminate.
  - cbn [includes]. rewrite orb_true_iff, starts_with_iff, IH. split.
    + intros [[after H] | (before & after & H)].
      * now exists [], after.
      * exists (c :: before), after. now rewrite H.
    + intros (before & after & H).
      destruct before as [| b before'].
      * left. now exists after.
      * right. inversion H. now exists before', after.
Qed.

Lemma includes_false_iff (needle s : jsstring) :
  includes needle s = false <-> ~ occurs_in needle s.
Proof.
  rewrite <- includes_iff. destruct (includes needle s); split; intros H;
    congruence.
Qed.

(** X1.  The icon is the rain one exactly when the condition has "rain"
    in it, the cloud one exactly when it has "cloud" and no "rain" in it,
    and the sun otherwise, which is also the icon of a condition that is
    missing; the search tells upper case from lower case. *)
Theorem getWeatherIcon_by_substring (condition : option jsstring) :
  (getWeatherIcon condition = CloudRainIcon
   <-> exists c, condition = Some c /\ occurs_in (js "rain") c)
  /\ (getWeatherIcon condition = CloudIcon
      <-> exists c, condition = Some c
                    /\ occurs_in (js "cloud") c /\ ~ occurs_in (js "rain") c)
  /\ (getWeatherIcon condition = SunIcon
      <-> forall c, condition = Some c ->
                    ~ occurs_in (js "rain") c /\ ~ occurs_in (js "cloud") c)
  /\ getWeatherIcon None = SunIcon
  /\ getWeatherIcon (Some (js "Rain")) = SunIcon.
Proof.
  destruct condition as [c |]; unfold getWeatherIcon.
  - destruct (includes (js "rain") c) eqn:Hrain;
      [apply includes_iff in Hrain | apply includes_false_iff in Hrain];
      (destruct (includes (js "cloud") c) eqn:Hcloud;
       [apply includes_iff in Hcloud | apply includes_false_iff in Hcloud]).
    all: repeat split; try discriminate; try reflexivity.
    all: try (intros _; exists c; tauto).
    all: try (intros (c' & Hc & H); inversion Hc; subst c'; tauto).
    all: try (intros H; destruct (H c eq_refl); tauto).
    all: try (intros _ c' Hc; inversion Hc; subst c'; tauto).
    all: try (intros c' Hc; inversion Hc; subst c'; tauto).
    all: match goal with Hc : Some _ = Some _ |- _ => inversion Hc; subst end;
      assumption.
  - repeat split; try discriminate; try reflexivity.
    all: try (intros (c & Hc & _); discriminate).
Qed.

Example icon_of_light_rain : getWeatherIcon (Some (js "light rain")) = CloudRainIcon.
Proof. reflexivity. Qed.

Example icon_of_rain_clouds :
  getWeatherIcon (Some (js "clouds, then rain")) = CloudRainIcon.
Proof. reflexivity. Qed.

Example icon_of_scattered_clouds :
  getWeatherIcon (Some (js "scattered clouds")) = CloudIcon.
Proof. reflexivity. Qed.

Example icon_of_clear_sky : getWeatherIcon (Some (js "clear sky")) = SunIcon.
Proof. reflexivity. Qed.

(** ** The send button and the Enter key *)

Lemma has_visible_truthy_trim (s : jsstring) :
  has_visible s = JS.truthy (JS.trim s).
Proof.
  unfold has_visible.
  destruct (JS.truthy (JS.trim s)) eqn:Htrim.
  - destruct (existsb _ s) eqn:Hex; [reflexivity |].
    assert (Hall : forallb JS.is_trimmed s = true).
    { apply forallb_forall. intros c Hc.
      destruct (JS.is_trimmed c) eqn:Hcode; [reflexivity |].
      assert (Habs : existsb (fun c => negb (JS.is_trimmed c)) s = true).
      { apply existsb_exists. exists c. now rewrite Hcode. }
      congruence. }
    apply truthy_trim_false_iff in Hall. congruence.
  - apply truthy_trim_false_iff in Htrim.
    rewrite forallb_forall in Htrim.
    destruct (existsb _ s) eqn:Hex; [| reflexivity].
    apply existsb_exists in Hex. destruct Hex as (c & Hc & Hvisible).
    rewrite (Htrim c Hc) in Hvisible. discriminate.
Qed.

(** X2.  The send button is enabled exactly when the message has a code
    unit other than white space and line terminators and no chat request
    is loading. *)
Theorem send_enabled_iff (s : State) :
  send_disabled s = false
  <-> (exists c, In c (message s) /\ JS.is_trimmed c = false)
      /\ isLoading s = false.
Proof.
  unfold send_disabled. rewrite orb_false_iff, negb_false_iff.
  rewrite <- has_visible_truthy_trim. unfold has_visible.
  rewrite existsb_exists. split.
  - intros [(c & Hc & Hvisible) Hloading]. split; [| exact Hloading].
    exists c. now rewrite negb_true_iff in Hvisible.
  - intros [(c & Hc & Hvisible) Hloading]. split; [| exact Hloading].
    exists c. now rewrite Hvisible.
Qed.

(** X3.  A key press sends only when the key is named exactly Enter: any
    other key leaves the world as it is, whatever the message. *)
Theorem other_keys_do_nothing (w : World) (key : jsstring) :
  key <> js "Enter" -> step w (KeyPress key) = w.
Proof.
  intros Hkey. unfold step, on_event.
  destruct (jsstring_eqb key (js "Enter")) eqn:Heq.
  - apply jsstring_eqb_eq in Heq. contradiction.
  - reflexivity.
Qed.

(** X3 on the key named in lower case, with a message ready to go. *)
Lemma other_keys_do_nothing_witness :
  js "enter" <> js "Enter"
  /\ step typed_hello (KeyPress (js "enter")) = typed_hello.
Proof.
  assert (Hkey : js "enter" <> js "Enter") by (vm_compute; discriminate).
  split.
  - exact Hkey.
  - exact (other_keys_do_nothing typed_hello (js "enter") Hkey).
Defined.

(** ** Which events issue requests *)

Lemma step_BACKEND_URL (w : World) (e : Event) :
  BACKEND_URL (step w e) = BACKEND_URL w.
Proof.
  destruct e; unfold_handlers; split_innermost; reflexivity.
Qed.

Lemma run_BACKEND_URL (w : World) (events : list Event) :
  BACKEND_URL (run w events) = BACKEND_URL w.
Proof.
  induction events as [| e events IH] using rev_ind.
  - reflexivity.
  - now rewrite run_snoc, step_BACKEND_URL.
Qed.

(** One step issues no request or one, and the one is a POST with a body
    to [/chat] or [/routine]. *)
Lemma step_requests (w : World) (e : Event) :
  requests (step w e) = requests w
  \/ exists r, requests (step w e) = requests w ++ [r]
               /\ is_post_to_api (BACKEND_URL w) r = true
               /\ may_send e = true.
Proof.
  destruct e; unfold_handlers; unfold API; split_innermost;
    try (left; reflexivity);
    right; eexists; (split; [reflexivity |]);
    unfold is_post_to_api; cbn [req_method req_body req_url BACKEND_URL may_send];
    rewrite String.eqb_refl; cbn; rewrite ?orb_true_r; split; reflexivity.
Qed.

(** X4.  Typing, suggestions, quick actions, tab changes, form edits, the
    microphone and its callbacks, and every response, fulfilled or
    rejected, issue no request: nothing is retried and nothing is
    fetched again. *)
Theorem only_sends_and_saves_issue_requests (w : World) (e : Event) :
  may_send e = false -> requests (step w e) = requests w.
Proof.
  intros He. destruct (step_requests w e) as [Hsame | (r & _ & _ & Hsend)].
  - exact Hsame.
  - congruence.
Qed.

(** X4 on the rejected chat request of [send_by_button]. *)
Lemma only_sends_and_saves_issue_requests_witness :
  may_send (Settled 3 (ChatResponse (Rejected (js "timeout")))) = false
  /\ requests (step (run (mount demo_backend true) send_by_button)
                 (Settled 3 (ChatResponse (Rejected (js "timeout")))))
     = requests (run (mount demo_backend true) send_by_button).
Proof.
  split.
  - reflexivity.
  - exact (only_sends_and_saves_issue_requests
             (run (mount demo_backend true) send_by_button)
             (Settled 3 (ChatResponse (Rejected (js "timeout")))) eq_refl).
Defined.

(** X5.  From whatever world, the requests a run of events issues are
    POSTs with a body to [/chat] or [/routine] of the backend of that
    world, at most one for each key press, click on send or click on
    save: no event issues a GET, so nothing the user or the network does
    fetches the weather, the news or the chat history again. *)
Theorem events_issue_posts_only (w : World) (events : list Event) :
  exists posts,
    requests (run w events) = requests w ++ posts
    /\ forallb (is_post_to_api (BACKEND_URL w)) posts = true
    /\ (List.length posts <= List.length (filter may_send events))%nat.
Proof.
  induction events as [| e events IH] using rev_ind.
  - exists []. rewrite app_nil_r. repeat split. cbn. lia.
  - destruct IH as (posts & Hreq & Hposts & Hcount).
    rewrite run_snoc, filter_app, length_app.
    destruct (step_requests (run w events) e)
      as [Hsame | (r & Hnew & Hpost & Hsend)].
    + exists posts. rewrite Hsame. repeat split; [exact Hreq | exact Hposts | lia].
    + exists (posts ++ [r]). rewrite Hnew, Hreq, app_assoc.
      rewrite run_BACKEND_URL in Hpost.
      repeat split.
      * rewrite forallb_app, Hposts. cbn. now rewrite Hpost.
      * rewrite length_app. cbn [filter]. rewrite Hsend. cbn. lia.
Qed.

(** ** Voice input *)

(** Without a recognition object no step makes one, calls one or starts
    listening. *)
Lemma step_without_recognition (w : World) (e : Event) :
  recognitionRef w = false ->
  recognitionRef (step w e) = false
  /\ recognition_calls (step w e) = recognition_calls w
  /\ isListening (ui (step w e)) = isListening (ui w).
Proof.
  intros Href.
  destruct w as [backend [msg history loading listening wth nws rtn tab]
                   ref calls tsts cons reqs flying next unh].
  cbn in Href. subst ref.
  destruct e; unfold_handlers; unfold send_disabled; cbn;
    split_innermost; repeat split.
Qed.

(** X6.  In a browser without speech recognition the recognition object
    is never called and the component never listens, whatever the user
    does; a click on the microphone raises the error toast and changes
    no hook state. *)
Theorem voice_unsupported_never_listens (backend : string) (events : list Event) :
  recognition_calls (run (mount backend false) events) = []
  /\ isListening (ui (run (mount backend false) events)) = false
  /\ toasts (step (run (mount backend false) events) ClickMic)
     = toasts (run (mount backend false) events)
       ++ [mkToast ToastError "Voice recognition not supported in this browser."]
  /\ ui (step (run (mount backend false) events) ClickMic)
     = ui (run (mount backend false) events).
Proof.
  assert (Hinv : recognitionRef (run (mount backend false) events) = false
                 /\ recognition_calls (run (mount backend false) events) = []
                 /\ isListening (ui (run (mount backend false) events)) = false).
  { induction events as [| e events IH] using rev_ind.
    - repeat split.
    - destruct IH as (Href & Hcalls & Hlistening).
      rewrite run_snoc.
      destruct (step_without_recognition _ e Href) as (Href' & Hcalls' & Hlistening').
      rewrite Href', Hcalls', Hlistening'. now repeat split. }
  destruct Hinv as (Href & Hcalls & Hlistening).
  split; [exact Hcalls |]. split; [exact Hlistening |].
  destruct (run (mount backend false) events)
    as [url hooks ref calls tsts cons reqs flying next unh].
  cbn in Href. subst ref. split; reflexivity.
Qed.

Lemma last_call_is_start_snoc (calls : list RecognitionCall) :
  last_call_is_start (calls ++ [RecStart]).
Proof. now exists calls. Qed.

Lemma stops_follow_starts_start (calls : list RecognitionCall) :
  stops_follow_starts calls -> stops_follow_starts (calls ++ [RecStart]).
Proof.
  intros Hcalls earlier later Hsplit.
  destruct later as [| c later'] using rev_ind.
  - apply (f_equal (@rev RecognitionCall)) in Hsplit.
    rewrite !rev_app_distr in Hsplit. cbn in Hsplit. discriminate.
  - clear IHlater'.
    change (earlier ++ RecStop :: later' ++ [c])
      with (earlier ++ (RecStop :: later') ++ [c]) in Hsplit.
    rewrite app_assoc in Hsplit.
    apply app_inj_tail in Hsplit. destruct Hsplit as [Hsplit _].
    exact (Hcalls earlier later' Hsplit).
Qed.

Lemma stops_follow_starts_stop (calls : list RecognitionCall) :
  stops_follow_starts calls -> last_call_is_start calls ->
  stops_follow_starts (calls ++ [RecStop]).
Proof.
  intros Hcalls Hlast earlier later Hsplit.
  destruct later as [| c later'] using rev_ind.
  - apply app_inj_tail in Hsplit. destruct Hsplit as [<- _]. exact Hlast.
  - clear IHlater'.
    change (earlier ++ RecStop :: later' ++ [c])
      with (earlier ++ (RecStop :: later') ++ [c]) in Hsplit.
    rewrite app_assoc in Hsplit.
    apply app_inj_tail in Hsplit. destruct Hsplit as [Hsplit _].
    exact (Hcalls earlier later' Hsplit).
Qed.

Lemma step_listening_started (w : World) (e : Event) :
  listening_started w -> listening_started (step w e).
Proof.
  intros [Hlistening Hcalls].
  destruct w as [backend [msg history loading listening wth nws rtn tab]
                   ref calls tsts cons reqs flying next unh].
  unfold listening_started in *. cbn in Hlistening, Hcalls.
  destruct e; unfold_handlers; unfold send_disabled; cbn;
    split_innermost; cbn; subst;
    try (split; [first [exact Hlistening | discriminate] | exact Hcalls]).
  - split; [discriminate |].
    apply stops_follow_starts_stop; [exact Hcalls | now apply Hlistening].
  - split; [intros _; apply last_call_is_start_snoc |].
    now apply stops_follow_starts_start.
Qed.

(** X7.  Whatever the user and the recognition engine do, the component
    shows itself listening only when the last thing it asked of the
    engine was to start, and it never asks the engine to stop except
    right after asking it to start. *)
Theorem listening_only_after_start
    (backend : string) (speech : bool) (events : list Event) :
  (isListening (ui (run (mount backend speech) events)) = true ->
   last_call_is_start (recognition_calls (run (mount backend speech) events)))
  /\ stops_follow_starts (recognition_calls (run (mount backend speech) events)).
Proof.
  change (listening_started (run (mount backend speech) events)).
  induction events as [| e events IH] using rev_ind.
  - destruct speech; split; cbn; try discriminate;
      intros earlier later H; destruct earlier; discriminate.
  - rewrite run_snoc. now apply step_listening_started.
Qed.



(** ** The loaders *)

Lemma Permutation_of_three {A} (a b c : A) (l : list A) :
  Permutation l [a; b; c] ->
  l = [a; b; c] \/ l = [a; c; b] \/ l = [b; a; c]
  \/ l = [b; c; a] \/ l = [c; a; b] \/ l = [c; b; a].
Proof.
  intros Hperm.
  destruct (Permutation_vs_cons_inv Hperm) as (l1 & l2 & ->).
  apply Permutation_sym, Permutation_cons_app_inv in Hperm.
  apply Permutation_length_2_inv in Hperm.
  destruct l1 as [| x [| y [| z l1']]]; cbn in Hperm |- *;
    destruct Hperm as [Heq | Heq]; inversion Heq; subst; tauto.
Qed.

(** X9.  The three responses of the mount may arrive in any order, each
    fulfilled or rejected: the hook state they leave is the same, each
    slice holding the data of its own response or, after a rejection, its
    initial value, and nothing is left in flight. *)
Theorem loader_responses_commute
    (backend : string) (speech : bool) (arrival : list Event)
    (weather_settled : Outcome WeatherSnapshot)
    (news_settled : Outcome NewsData)
    (history_settled : Outcome (list ChatEntry)) :
  Permutation arrival
    [ Settled 0 (WeatherResponse weather_settled);
      Settled 1 (NewsResponse news_settled);
      Settled 2 (ChatHistoryResponse history_settled) ] ->
  ui (run (mount backend speech) arrival)
  = {| message := js "";
       chatHistory := loaded [] (fun data => data) history_settled;
       isLoading := false;
       isListening := false;
       weather := loaded None Some weather_settled;
       news := loaded [] data_news news_settled;
       routine := empty_routine;
       activeTab := Daily |}
  /\ in_flight (run (mount backend speech) arrival) = []
  /\ toasts (run (mount backend speech) arrival) = [].
Proof.
  intros Harrival. apply Permutation_of_three in Harrival.
  destruct Harrival as [-> | [-> | [-> | [-> | [-> | ->]]]]];
    destruct speech, weather_settled, news_settled, history_settled;
    repeat split.
Qed.

(** X9 on the order chat history, weather, news, the news rejected. *)
Lemma loader_responses_commute_witness :
  Permutation
    [ Settled 2 (ChatHistoryResponse (Fulfilled []));
      Settled 0 (WeatherResponse
                   (Fulfilled (mkWeather 31 34 40 (js "haze") (js "Delhi"))));
      Settled 1 (NewsResponse (Rejected (js "Network Error"))) ]
    [ Settled 0 (WeatherResponse
                   (Fulfilled (mkWeather 31 34 40 (js "haze") (js "Delhi"))));
      Settled 1 (NewsResponse (Rejected (js "Network Error")));
      Settled 2 (ChatHistoryResponse (Fulfilled [])) ]
  /\ in_flight
       (run mounted
          [ Settled 2 (ChatHistoryResponse (Fulfilled []));
            Settled 0 (WeatherResponse
                         (Fulfilled (mkWeather 31 34 40 (js "haze") (js "Delhi"))));
            Settled 1 (NewsResponse (Rejected (js "Network Error"))) ])
     = [].
Proof.
  assert (Hperm :
    Permutation
      [ Settled 2 (ChatHistoryResponse (Fulfilled []));
        Settled 0 (WeatherResponse
                     (Fulfilled (mkWeather 31 34 40 (js "haze") (js "Delhi"))));
        Settled 1 (NewsResponse (Rejected (js "Network Error"))) ]
      [ Settled 0 (WeatherResponse
                     (Fulfilled (mkWeather 31 34 40 (js "haze") (js "Delhi"))));
        Settled 1 (NewsResponse (Rejected (js "Network Error")));
        Settled 2 (ChatHistoryResponse (Fulfilled [])) ]).
  { apply Permutation_sym.
    apply (Permutation_cons_app
             [Settled 2 (ChatHistoryResponse (Fulfilled []))]
             [Settled 1 (NewsResponse (Rejected (js "Network Error")))]).
    apply perm_swap. }
  split.
  - exact Hperm.
  - exact (proj1 (proj2 (loader_responses_commute demo_backend true _ _ _ _ Hperm))).
Defined.

(** ** Chat history against chat responses *)

Lemma is_in_flight_appended (a : Awaiting) (l : list (nat * Awaiting))
    (id : nat) :
  existsb (fun p => Nat.eqb (fst p) id && Awaiting_eqb (snd p) a)
    (l ++ [(id, a)]) = true.
Proof.
  rewrite existsb_app. cbn. rewrite Nat.eqb_refl.
  replace (Awaiting_eqb a a) with true by (now destruct a).
  cbn. apply orb_true_r.
Qed.

(** X10.  The chat history response replaces the list, the chat response
    adds to it: an exchange answered before the history arrives is wiped
    off the list by it, one answered after it stays on top. *)
Theorem late_history_overwrites_exchange
    (backend : string) (speech : bool) (text : jsstring)
    (entry : ChatEntry) (history : list ChatEntry) :
  JS.trim text <> [] ->
  chatHistory
    (ui (run (mount backend speech)
           [ ChangeMessage text; ClickSend;
             Settled 3 (ChatResponse (Fulfilled entry));
             Settled 2 (ChatHistoryResponse (Fulfilled history)) ]))
  = history
  /\ chatHistory
       (ui (run (mount backend speech)
              [ ChangeMessage text; ClickSend;
                Settled 2 (ChatHistoryResponse (Fulfilled history));
                Settled 3 (ChatResponse (Fulfilled entry)) ]))
     = entry :: history.
Proof.
  intros Htext. apply truthy_true_iff in Htext.
  unfold run. cbn [fold_left].
  set (w1 := step (mount backend speech) (ChangeMessage text)).
  assert (Hmsg : JS.truthy (JS.trim (message (ui w1))) = true)
    by (destruct speech; exact Htext).
  assert (Henabled : send_disabled (ui w1) = false).
  { unfold send_disabled. rewrite Hmsg. now destruct speech. }
  rewrite (step_ClickSend_enabled w1 Henabled).
  rewrite (dispatch_normal _ _ _ (handleSendMessage_sends w1 Hmsg)).
  destruct speech; split; reflexivity.
Qed.

(** X10 on a first question. *)
Lemma late_history_overwrites_exchange_witness :
  JS.trim (js "breakfast?") <> []
  /\ chatHistory
       (ui (run mounted
              [ ChangeMessage (js "breakfast?"); ClickSend;
                Settled 3 (ChatResponse
                             (Fulfilled (mkChatEntry (js "breakfast?") (js "Poha."))));
                Settled 2 (ChatHistoryResponse (Fulfilled [])) ]))
     = [].
Proof.
  assert (Htext : JS.trim (js "breakfast?") <> []) by (vm_compute; discriminate).
  split.
  - exact Htext.
  - exact (proj1 (late_history_overwrites_exchange demo_backend true
                    (js "breakfast?")
                    (mkChatEntry (js "breakfast?") (js "Poha.")) [] Htext)).
Defined.

(** ** The loading state *)

Lemma step_keeps_loading (w : World) (e : Event) :
  is_chat_response e = false ->
  isLoading (ui w) = true -> isLoading (ui (step w e)) = true.
Proof.
  intros He Hloading.
  destruct w as [backend [msg history loading listening wth nws rtn tab]
                   ref calls tsts cons reqs flying next unh].
  cbn in Hloading. subst loading.
  destruct e; cbn in He; unfold_handlers; unfold send_disabled; cbn;
    split_innermost; try reflexivity; discriminate.
Qed.

Lemma run_keeps_loading (w : World) (events : list Event) :
  isLoading (ui w) = true ->
  forallb (fun e => negb (is_chat_response e)) events = true ->
  isLoading (ui (run w events)) = true.
Proof.
  intros Hloading.
  induction events as [| e events IH] using rev_ind; intros Hnone.
  - exact Hloading.
  - rewrite forallb_app in Hnone. apply andb_prop in Hnone.
    destruct Hnone as [Hevents He]. cbn in He. rewrite andb_true_r in He.
    apply negb_true_iff in He.
    rewrite run_snoc. apply step_keeps_loading; [exact He | now apply IH].
Qed.

(** X11.  Once a chat request has set [isLoading], nothing but a chat
    response clears it: there is no timeout, and until the response comes
    the send button stays disabled.  The response clears it whether it is
    fulfilled or rejected. *)
Theorem loading_until_chat_response
    (w : World) (events : list Event) (id : nat) (settled : Outcome ChatEntry) :
  isLoading (ui w) = true ->
  forallb (fun e => negb (is_chat_response e)) events = true ->
  is_in_flight id AwaitChat (run w events) = true ->
  isLoading (ui (run w events)) = true
  /\ step (run w events) ClickSend = run w events
  /\ isLoading (ui (step (run w events) (Settled id (ChatResponse settled))))
     = false.
Proof.
  intros Hloading Hnone Hflying.
  pose proof (run_keeps_loading w events Hloading Hnone) as Hstill.
  split; [exact Hstill |]. split.
  - apply step_ClickSend_disabled. unfold send_disabled.
    rewrite Hstill. apply orb_true_r.
  - rewrite (step_Settled_in_flight _ id (ChatResponse settled) Hflying).
    destruct settled; reflexivity.
Qed.

(** X11 on a message sent and the tab changed while it is outstanding. *)
Lemma loading_until_chat_response_witness :
  isLoading (ui (run mounted [ChangeMessage (js "lunch?"); ClickSend])) = true
  /\ forallb (fun e => negb (is_chat_response e))
       [SelectTab NewsTab; Settled 1 (NewsResponse (Rejected (js "503")))] = true
  /\ is_in_flight 3 AwaitChat
       (run (run mounted [ChangeMessage (js "lunch?"); ClickSend])
          [SelectTab NewsTab; Settled 1 (NewsResponse (Rejected (js "503")))])
     = true
  /\ isLoading
       (ui (run (run mounted [ChangeMessage (js "lunch?"); ClickSend])
              [SelectTab NewsTab; Settled 1 (NewsResponse (Rejected (js "503")))]))
     = true.
Proof.
  split; [reflexivity |]. split; [reflexivity |]. split; [reflexivity |].
  exact (proj1 (loading_until_chat_response
                  (run mounted [ChangeMessage (js "lunch?"); ClickSend])
                  [SelectTab NewsTab; Settled 1 (NewsResponse (Rejected (js "503")))]
                  3 (Rejected (js "timeout")) eq_refl eq_refl eq_refl)).
Defined.

(** X12.  A send that fails does not give the text back: after the
    rejection the input is empty, [isLoading] is off, the list is as the
    send found it, and the one request of the send is the only one
    issued. *)
Theorem failed_send_loses_message (w : World) (error : Error) :
  JS.trim (message (ui w)) <> [] ->
  message
    (ui (run w [ KeyPress (js "Enter");
                 Settled (next_request w) (ChatResponse (Rejected error)) ]))
  = js ""
  /\ isLoading
       (ui (run w [ KeyPress (js "Enter");
                    Settled (next_request w) (ChatResponse (Rejected error)) ]))
     = false
  /\ chatHistory
       (ui (run w [ KeyPress (js "Enter");
                    Settled (next_request w) (ChatResponse (Rejected error)) ]))
     = chatHistory (ui w)
  /\ requests
       (run w [ KeyPress (js "Enter");
                Settled (next_request w) (ChatResponse (Rejected error)) ])
     = requests w
       ++ [mkRequest POST (API w ++ "/chat") (Some (chat_body (message (ui w))))].
Proof.
  intros Hmsg. apply truthy_true_iff in Hmsg.
  unfold run. cbn [fold_left]. rewrite step_Enter.
  rewrite (dispatch_normal _ _ _ (handleSendMessage_sends w Hmsg)).
  rewrite step_Settled_in_flight
    by (unfold is_in_flight; cbn [in_flight awaited_by];
        apply is_in_flight_appended).
  repeat split.
Qed.

(** X12 at [typed_hello]. *)
Lemma failed_send_loses_message_witness :
  JS.trim (message (ui typed_hello)) <> []
  /\ message
       (ui (run typed_hello
              [ KeyPress (js "Enter");
                Settled (next_request typed_hello)
                  (ChatResponse (Rejected (js "Network Error"))) ]))
     = js "".
Proof.
  assert (Hmsg : JS.trim (message (ui typed_hello)) <> [])
    by (vm_compute; discriminate).
  split.
  - exact Hmsg.
  - exact (proj1 (failed_send_loses_message typed_hello (js "Network Error") Hmsg)).
Defined.

(** ** Suggestions and quick actions *)


Lemma quickSuggestions_visible (index : nat) (suggestion : jsstring) :
  nth_error quickSuggestions index = Some suggestion ->
  JS.truthy (JS.trim suggestion) = true.
Proof.
  intros Hnth.
  do 4 (destruct index as [| index];
        [cbn in Hnth; inversion Hnth; reflexivity |]).
  destruct index; discriminate.
Qed.



(** X14.  A suggestion is there to click only while the chat list is
    empty and for the four indices of the list: then the click puts the
    suggestion in the input, which enables the send button unless a chat
    request is loading; any other suggestion click changes nothing. *)
Theorem suggestion_click (w : World) (index : nat) :
  (chatHistory (ui w) <> [] \/ (4 <= index)%nat ->
   step w (ClickSuggestion index) = w)
  /\ (chatHistory (ui w) = [] -> (index < 4)%nat ->
      exists suggestion,
        nth_error quickSuggestions index = Some suggestion
        /\ message (ui (step w (ClickSuggestion index))) = suggestion
        /\ requests (step w (ClickSuggestion index)) = requests w
        /\ send_disabled (ui (step w (ClickSuggestion index)))
           = isLoading (ui w)).
Proof.
  split.
  - intros Hgone. unfold step, on_event, dispatch, bind, read.
    destruct (chatHistory (ui w)) as [| entry history] eqn:Hhistory.
    + destruct Hgone as [Habs | Hindex]; [congruence |].
      replace (nth_error quickSuggestions index) with (@None jsstring);
        [reflexivity |].
      symmetry. apply nth_error_None. exact Hindex.
    + reflexivity.
  - intros Hempty Hindex.
    destruct (nth_error quickSuggestions index) as [suggestion |] eqn:Hnth.
    + exists suggestion. split; [reflexivity |].
      pose proof (quickSuggestions_visible index suggestion Hnth) as Hvisible.
      unfold step, on_event, dispatch, bind, read.
      rewrite Hempty, Hnth. cbn.
      unfold send_disabled. cbn. rewrite Hvisible. repeat split.
    + apply nth_error_None in Hnth. cbn in Hnth. lia.
Qed.

(** X14 on the second suggestion, right after the mount. *)
Lemma suggestion_click_witness :
  chatHistory (ui mounted) = [] /\ (1 < 4)%nat
  /\ exists suggestion,
       nth_error quickSuggestions 1 = Some suggestion
       /\ message (ui (step mounted (ClickSuggestion 1))) = suggestion
       /\ requests (step mounted (ClickSuggestion 1)) = requests mounted
       /\ send_disabled (ui (step mounted (ClickSuggestion 1)))
          = isLoading (ui mounted).
Proof.
  assert (Hindex : (1 < 4)%nat) by lia.
  split; [reflexivity |]. split; [exact Hindex |].
  exact (proj2 (suggestion_click mounted 1) eq_refl Hindex).
Defined.

(** ** The chat list *)

Lemma step_chatHistory_grows (w : World) (e : Event) :
  fulfils e AwaitChatHistory = false ->
  exists newer,
    chatHistory (ui (step w e)) = newer ++ chatHistory (ui w)
    /\ (List.length newer <= if fulfils e AwaitChat then 1 else 0)%nat.
Proof.
  intros He.
  destruct w as [backend [msg history loading listening wth nws rtn tab]
                   ref calls tsts cons reqs flying next unh].
  destruct e; cbn in He; unfold_handlers; unfold send_disabled; cbn;
    split_innermost; cbn;
    try (exists []; split; [reflexivity | cbn; lia]); try discriminate.
  eexists [_]. split; [reflexivity | cbn; lia].
Qed.

(** X15.  Apart from the chat history response, which replaces the list,
    nothing takes an exchange off the screen or moves it: what is
    displayed after any run is what was displayed before, followed by
    the exchanges answered since, at most one for each fulfilled chat
    response. *)
Theorem display_is_append_only (w : World) (events : list Event) :
  forallb (fun e => negb (fulfils e AwaitChatHistory)) events = true ->
  exists answered,
    displayed_history (ui (run w events))
    = displayed_history (ui w) ++ answered
    /\ (List.length answered
        <= List.length (filter (fun e => fulfils e AwaitChat) events))%nat.
Proof.
  induction events as [| e events IH] using rev_ind; intros Hnone.
  - exists []. rewrite app_nil_r. split; [reflexivity | cbn; lia].
  - rewrite forallb_app in Hnone. apply andb_prop in Hnone.
    destruct Hnone as [Hevents He]. cbn in He. rewrite andb_true_r in He.
    apply negb_true_iff in He.
    destruct (IH Hevents) as (answered & Hshown & Hcount).
    destruct (step_chatHistory_grows (run w events) e He)
      as (newer & Hnew & Hone).
    rewrite run_snoc, filter_app, length_app.
    exists (answered ++ rev newer). unfold displayed_history in *.
    rewrite Hnew, rev_app_distr, Hshown, app_assoc. split; [reflexivity |].
    rewrite length_app, length_rev. cbn [filter].
    destruct (fulfils e AwaitChat); cbn in *; lia.
Qed.

(** X15 on [two_exchanges], from the mount. *)
Lemma display_is_append_only_witness :
  forallb (fun e => negb (fulfils e AwaitChatHistory)) two_exchanges = true
  /\ exists answered,
       displayed_history (ui (run mounted two_exchanges))
       = displayed_history (ui mounted) ++ answered
       /\ (List.length answered
           <= List.length (filter (fun e => fulfils e AwaitChat) two_exchanges))%nat.
Proof.
  split.
  - reflexivity.
  - exact (display_is_append_only mounted two_exchanges eq_refl).
Defined.

(** ** The routine form *)

Lemma last_edit_snoc (f : RoutineField) (events : list Event) (e : Event) :
  last_edit f (events ++ [e])
  = match form_edit e with
    | Some (g, v) => if RoutineField_eqb f g then Some v else last_edit f events
    | None => last_edit f events
    end.
Proof.
  induction events as [| e0 events IH]; cbn.
  - destruct (form_edit e) as [[g v] |]; [destruct (RoutineField_eqb f g) |];
      reflexivity.
  - rewrite IH. destruct (form_edit e) as [[g v] |];
      [destruct (RoutineField_eqb f g) |]; reflexivity.
Qed.

(** An edit of the form writes its field and nothing else. *)
Lemma step_form_edit (w : World) (e : Event) (g : RoutineField) (v : jsstring) :
  form_edit e = Some (g, v) ->
  (forall f, field_value f (routine (ui (step w e)))
             = if RoutineField_eqb f g then v
               else field_value f (routine (ui w)))
  /\ in_flight (step w e) = in_flight w
  /\ requests (step w e) = requests w
  /\ next_request (step w e) = next_request w
  /\ BACKEND_URL (step w e) = BACKEND_URL w.
Proof.
  intros He.
  destruct e; cbn in He; inversion He; subst;
    (split; [intros f; destruct f; reflexivity | repeat split]).
Qed.

Lemma run_form_edits (w : World) (edits : list Event) :
  forallb is_form_edit edits = true ->
  (forall f, field_value f (routine (ui (run w edits)))
             = match last_edit f edits with
               | Some v => v
               | None => field_value f (routine (ui w))
               end)
  /\ in_flight (run w edits) = in_flight w
  /\ requests (run w edits) = requests w
  /\ next_request (run w edits) = next_request w
  /\ BACKEND_URL (run w edits) = BACKEND_URL w.
Proof.
  induction edits as [| e edits IH] using rev_ind; intros Hedits.
  - repeat split.
  - rewrite forallb_app in Hedits. apply andb_prop in Hedits.
    destruct Hedits as [Hrest He]. cbn in He. rewrite andb_true_r in He.
    unfold is_form_edit in He.
    destruct (form_edit e) as [[g v] |] eqn:Hedit; [| discriminate].
    destruct (IH Hrest) as (Hfields & Hflying & Hreqs & Hnext & Hurl).
    destruct (step_form_edit (run w edits) e g v Hedit)
      as (Hfields' & Hflying' & Hreqs' & Hnext' & Hurl').
    rewrite run_snoc. split.
    + intros f. rewrite Hfields', last_edit_snoc, Hedit, Hfields.
      destruct (RoutineField_eqb f g); reflexivity.
    + rewrite Hflying', Hreqs', Hnext', Hurl'. now repeat split.
Qed.

(** X16.  After any sequence of edits of the routine form, each field
    holds the value of its last edit, and a field that was not edited
    holds what it held: the edits of different fields do not disturb each
    other, in whatever order they come. *)
Theorem routine_edits_last_wins
    (w : World) (edits : list Event) (f : RoutineField) :
  forallb is_form_edit edits = true ->
  field_value f (routine (ui (run w edits)))
  = match last_edit f edits with
    | Some v => v
    | None => field_value f (routine (ui w))
    end.
Proof.
  intros Hedits. apply (proj1 (run_form_edits w edits Hedits)).
Qed.

(** X16 on the water glasses corrected after the mood was chosen. *)
Lemma routine_edits_last_wins_witness :
  forallb is_form_edit
    [ChangeWaterGlasses (js "6"); ChangeMood Okay; ChangeWaterGlasses (js "8")]
  = true
  /\ field_value WaterGlasses
       (routine
          (ui (run mounted
                 [ ChangeWaterGlasses (js "6"); ChangeMood Okay;
                   ChangeWaterGlasses (js "8") ])))
     = js "8".
Proof.
  split.
  - reflexivity.
  - exact (routine_edits_last_wins mounted
             [ChangeWaterGlasses (js "6"); ChangeMood Okay; ChangeWaterGlasses (js "8")]
             WaterGlasses eq_refl).
Defined.



(** ** The date of a routine entry and the day it was saved *)

Lemma digit_code_inj (a b : Z) :
  Z.to_N (48 + a mod 10) = Z.to_N (48 + b mod 10) -> a mod 10 = b mod 10.
Proof.
  intros H. apply Z2N.inj in H; floor_arith.
Qed.

(** The day within the year, back from the month and the date. *)
Lemma day_from_month_and_date (d1 d2 leap : Z) :
  ES.MonthFromDay d1 leap = ES.MonthFromDay d2 leap ->
  ES.DateFromDay d1 leap = ES.DateFromDay d2 leap ->
  d1 = d2.
Proof.
  unfold ES.DateFromDay. intros ->.
  destruct (ES.MonthFromDay d2 leap) as [| p | p]; try lia.
  do 4 (destruct p as [p | p |]; try lia).
Qed.

(** X18.  The date sent with a routine is the UTC day of the click and
    nothing more: two saves in the years 0 to 9999 carry the same date
    exactly when they fall on the same UTC day, whatever the time of
    day. *)
Theorem today_identifies_utc_day (t1 t2 : JSDate.time) :
  four_digit_year t1 -> four_digit_year t2 ->
  (today t1 = today t2 <-> JSDate.Day t1 = JSDate.Day t2).
Proof.
  intros H1 H2. rewrite (today_digits t1 H1), (today_digits t2 H2).
  split.
  - intros Hsame.
    injection Hsame as Hy3 Hy2 Hy1 Hy0 Hm1 Hm0 Hd1 Hd0.
    apply digit_code_inj in Hy3, Hy2, Hy1, Hy0, Hm1, Hm0, Hd1, Hd0.
    pose proof (four_digit_year_range t1 H1) as Hr1.
    pose proof (four_digit_year_range t2 H2) as Hr2.
    destruct (calendar_day_in_range t1) as [Hmr1 Hdr1].
    destruct (calendar_day_in_range t2) as [Hmr2 Hdr2].
    assert (Hyear : JSDate.YearFromTime t1 = JSDate.YearFromTime t2)
      by floor_arith.
    assert (Hmonth : JSDate.MonthFromTime t1 = JSDate.MonthFromTime t2)
      by floor_arith.
    assert (Hdate : JSDate.DateFromTime t1 = JSDate.DateFromTime t2)
      by floor_arith.
    destruct (MonthFromTime_DateFromTime_tables t1) as [Hm1' Hd1'].
    destruct (MonthFromTime_DateFromTime_tables t2) as [Hm2' Hd2'].
    rewrite Hm1', Hm2', Hyear in Hmonth.
    rewrite Hd1', Hd2', Hyear in Hdate.
    pose proof (day_from_month_and_date _ _ _ Hmonth Hdate). lia.
  - intros Hday.
    unfold JSDate.YearFromTime, JSDate.MonthFromTime, JSDate.DateFromTime.
    cbv zeta. now rewrite Hday.
Qed.

(** X18 on the first and the last millisecond of 14 November 2023. *)
Lemma today_identifies_utc_day_witness :
  four_digit_year 1699920000000 /\ four_digit_year 1700006399999
  /\ (today 1699920000000 = today 1700006399999
      <-> JSDate.Day 1699920000000 = JSDate.Day 1700006399999).
Proof.
  assert (H1 : four_digit_year 1699920000000) by (unfold four_digit_year; lia).
  assert (H2 : four_digit_year 1700006399999) by (unfold four_digit_year; lia).
  split; [exact H1 |]. split; [exact H2 |].
  exact (today_identifies_utc_day 1699920000000 1700006399999 H1 H2).
Defined.

Example same_day_same_date :
  today 1699920000000 = js "2023-11-14"
  /\ today 1700006399999 = js "2023-11-14"
  /\ today 1700006400000 = js "2023-11-15".
Proof. repeat split. Qed.

(** ** Two chat requests at once *)

Lemma is_in_flight_after_settle (w : World) (id other : nat) (a : Awaiting) :
  id <> other ->
  is_in_flight other a w = true ->
  existsb (fun p => Nat.eqb (fst p) other && Awaiting_eqb (snd p) a)
    (filter (fun p => negb (Nat.eqb (fst p) id)) (in_flight w)) = true.
Proof.
  intros Hne Hother. unfold is_in_flight in Hother.
  apply existsb_exists in Hother. destruct Hother as (p & Hp & Htest).
  apply existsb_exists. exists p. split; [| exact Htest].
  apply filter_In. split; [exact Hp |].
  apply andb_prop in Htest. destruct Htest as [Hid _].
  apply Nat.eqb_eq in Hid. apply negb_true_iff, Nat.eqb_neq. lia.
Qed.

Lemma not_in_flight_after_settle (w : World) (id : nat) (a : Awaiting) :
  existsb (fun p => Nat.eqb (fst p) id && Awaiting_eqb (snd p) a)
    (filter (fun p => negb (Nat.eqb (fst p) id)) (in_flight w)) = false.
Proof.
  induction (in_flight w) as [| [i b] rest IH]; cbn.
  - reflexivity.
  - destruct (Nat.eqb i id) eqn:Hi; cbn; [exact IH |].
    rewrite Hi. exact IH.
Qed.

(** X19.  [isLoading] is one flag for all chat requests: when two are
    outstanding, the answer to either one, fulfilled or rejected, turns
    the flag off and enables the send button for a message that is not
    blank, while the other request is still in flight. *)
Theorem first_answer_ends_loading
    (w : World) (id other : nat) (settled : Outcome ChatEntry) :
  id <> other ->
  is_in_flight id AwaitChat w = true ->
  is_in_flight other AwaitChat w = true ->
  isLoading (ui (step w (Settled id (ChatResponse settled)))) = false
  /\ is_in_flight other AwaitChat (step w (Settled id (ChatResponse settled)))
     = true
  /\ is_in_flight id AwaitChat (step w (Settled id (ChatResponse settled)))
     = false.
Proof.
  intros Hne Hid Hother.
  rewrite (step_Settled_in_flight w id (ChatResponse settled) Hid).
  pose proof (is_in_flight_after_settle w id other AwaitChat Hne Hother) as Hstill.
  pose proof (not_in_flight_after_settle w id AwaitChat) as Hgone.
  destruct settled; repeat split; assumption.
Qed.

(** X19 on [send_then_enter]: the first answer comes back fulfilled. *)
Lemma first_answer_ends_loading_witness :
  3%nat <> 4%nat
  /\ is_in_flight 3 AwaitChat (run mounted send_then_enter) = true
  /\ is_in_flight 4 AwaitChat (run mounted send_then_enter) = true
  /\ isLoading
       (ui (step (run mounted send_then_enter)
              (Settled 3 (ChatResponse
                            (Fulfilled (mkChatEntry (js "first") (js "ok")))))))
     = false.
Proof.
  assert (Hne : 3%nat <> 4%nat) by lia.
  split; [exact Hne |]. split; [reflexivity |]. split; [reflexivity |].
  exact (proj1 (first_answer_ends_loading (run mounted send_then_enter) 3 4
                  (Fulfilled (mkChatEntry (js "first") (js "ok")))
                  Hne eq_refl eq_refl)).
Defined.
